(** * Resume analyzer: the scoring pipeline and the feedback parser

    A shallow embedding of [app.py] (semantic scorer, keyword fallback scorer,
    score-to-feedback mapper, key-section extraction), of
    [src/resume_analyzer.py] (construction, input truncation, the
    section-header parser, skill extraction), of [src/pdf_extractor.py] and
    of [src/config.py], with the properties the natural-language
    specification states about them and further properties read off the
    code.

    Modelling conventions.
    - A Python [str] is a Rocq [string]; a character is a code point below
      256.  [str.lower], [str.strip] and [str.isspace] are defined exactly as
      CPython defines them on those code points.
    - Python's dynamic typing is kept where it matters: the arguments of the
      scoring functions are values [pyval], and a method call on a value that
      is not a string raises [AttributeError].
    - Exceptions are explicit: a computation has type [result A], and
      [try ... except Exception] is [try_except].
    - Python floats are IEEE 754 binary64 numbers, modelled bit-exactly with
      the Standard Library's [SpecFloat].
    - NumPy, scikit-learn and the sentence-embedding model are external: the
      backend is a parameter.  The semantic scorer is embedded twice.
      [AppF32] computes as the program does, in IEEE 754 binary32 with the
      summation order of [np.mean] and the promotion rules of NumPy 2; the
      statement about the value of the score is proved there.  [App] has the
      same code with the arithmetic idealised as exact arithmetic on [Q]; it
      carries the properties that do not depend on rounding (the score's
      range, the fallback on failure, identical texts). *)

From Stdlib Require Import ZArith QArith Qround Qminmax Qabs Lia List Bool Ascii String SpecFloat.
Import ListNotations.

Local Open Scope string_scope.
Local Open Scope list_scope.
Local Open Scope Z_scope.

(* ===================================================================== *)
(** * Python runtime fragments *)
(* ===================================================================== *)

Module Py.

(** ** Exceptions *)

Inductive exn_class : Type :=
| AttributeError
| ValueError
| OverflowError
| ZeroDivisionError
| RuntimeError.

(** An exception object: its class and [str(e)]. *)
Record exn : Type := mk_exn { exn_cls : exn_class; exn_str : string }.

Inductive result (A : Type) : Type :=
| Ok (a : A)
| Raise (e : exn).

Arguments Ok {A} a.
Arguments Raise {A} e.

Definition bind {A B : Type} (c : result A) (k : A -> result B) : result B :=
  match c with
  | Ok a => k a
  | Raise e => Raise e
  end.

(** [try: body  except Exception as e: handler e] *)
Definition try_except {A : Type} (body : result A) (handler : exn -> result A)
  : result A :=
  match body with
  | Ok a => Ok a
  | Raise e => handler e
  end.

Definition raises {A : Type} (c : result A) : Prop :=
  exists e, c = Raise e.

(** ** Values *)

(** The two kinds of argument the scoring functions distinguish: a string,
    or an object without string methods ([None] stands for all of them). *)
Inductive pyval : Type :=
| PyStr (s : string)
| PyNone.

(** Looking up the string method [attr] on [v]: the receiver when [v] is a
    string, [AttributeError] otherwise. *)
Definition str_method (attr : string) (v : pyval) : result string :=
  match v with
  | PyStr s => Ok s
  | PyNone =>
      Raise (mk_exn AttributeError
               ("'NoneType' object has no attribute '" ++ attr ++ "'")%string)
  end.

(** ** Strings *)

(** [len(s)] *)
Definition len (s : string) : Z := Z.of_nat (String.length s).

Definition code (c : ascii) : N := N_of_ascii c.

(** [c.isspace()] for a code point below 256: TAB, LF, VT, FF, CR, the
    four separators FS..US, SPACE, NEL and NBSP. *)
Definition isspace (c : ascii) : bool :=
  let n := code c in
  ((9 <=? n) && (n <=? 13) || (28 <=? n) && (n <=? 32)
   || (n =? 133) || (n =? 160))%N.

(** [c.lower()] for a code point below 256: A-Z, and the Latin-1 capitals
    U+00C0..U+00DE other than the multiplication sign U+00D7. *)
Definition lower_char (c : ascii) : ascii :=
  let n := code c in
  if ((65 <=? n) && (n <=? 90)
      || (192 <=? n) && (n <=? 222) && negb (n =? 215))%N
  then ascii_of_N (n + 32) else c.

(** [s.lower()] *)
Fixpoint lower (s : string) : string :=
  match s with
  | EmptyString => EmptyString
  | String c s' => String (lower_char c) (lower s')
  end.

(** [s.lstrip()] *)
Fixpoint lstrip (s : string) : string :=
  match s with
  | EmptyString => EmptyString
  | String c s' => if isspace c then lstrip s' else s
  end.

(** [s.rstrip()] *)
Fixpoint rstrip (s : string) : string :=
  match s with
  | EmptyString => EmptyString
  | String c s' =>
      match rstrip s' with
      | EmptyString => if isspace c then EmptyString else String c EmptyString
      | t => String c t
      end
  end.

(** [s.strip()] *)
Definition strip (s : string) : string := rstrip (lstrip s).

(** [s.startswith(p)] *)
Fixpoint startswith (p s : string) : bool :=
  match p, s with
  | EmptyString, _ => true
  | String a p', String b s' => Ascii.eqb a b && startswith p' s'
  | String _ _, EmptyString => false
  end.

(** [needle in hay] *)
Fixpoint contains (needle hay : string) : bool :=
  startswith needle hay ||
  match hay with
  | EmptyString => false
  | String _ hay' => contains needle hay'
  end.

(** [s.split(sep)] for a one-character separator: one more piece than
    there are separators, so [''.split('.') == ['']]. *)
Fixpoint split (sep : ascii) (s : string) : list string :=
  match s with
  | EmptyString => [EmptyString]
  | String c s' =>
      match split sep s' with
      | [] => [EmptyString]
      | piece :: rest =>
          if Ascii.eqb c sep then EmptyString :: piece :: rest
          else String c piece :: rest
      end
  end.

(** [sep.join(pieces)] *)
Fixpoint join (sep : string) (pieces : list string) : string :=
  match pieces with
  | [] => EmptyString
  | [p] => p
  | p :: rest => (p ++ sep ++ join sep rest)%string
  end.

(** [s[:n]] for [n >= 0] *)
Fixpoint take (n : nat) (s : string) : string :=
  match n, s with
  | O, _ => EmptyString
  | S _, EmptyString => EmptyString
  | S n', String c s' => String c (take n' s')
  end.

(** [s[n:]] for [n >= 0] *)
Fixpoint drop (n : nat) (s : string) : string :=
  match n, s with
  | O, _ => s
  | S _, EmptyString => EmptyString
  | S n', String _ s' => drop n' s'
  end.

(** ** Predicates on strings, for stating properties *)

(** The character [c] occurs in [s]. *)
Fixpoint occurs (c : ascii) (s : string) : bool :=
  match s with
  | EmptyString => false
  | String x s' => Ascii.eqb x c || occurs c s'
  end.

(** Every character of [s] is whitespace. *)
Fixpoint all_space (s : string) : bool :=
  match s with
  | EmptyString => true
  | String c s' => isspace c && all_space s'
  end.

Definition first_not_space (s : string) : Prop :=
  match s with
  | EmptyString => True
  | String c _ => isspace c = false
  end.

Fixpoint last_not_space (s : string) : Prop :=
  match s with
  | EmptyString => True
  | String c EmptyString => isspace c = false
  | String _ s' => last_not_space s'
  end.

End Py.

Module PyNotations.
  Notation "x <- c ;; k" := (Py.bind c (fun x => k))
    (at level 61, c at next level, right associativity).
End PyNotations.

Import PyNotations.

(* ===================================================================== *)
(** * Python floats: IEEE 754 binary64 *)
(* ===================================================================== *)

Module PyFloat.

Import Py.

Definition prec : Z := 53.
Definition emax : Z := 1024.

Definition float : Type := spec_float.

(** [float(z)], correctly rounded (exact when [|z| < 2^53]). *)
Definition of_int (z : Z) : float := binary_normalize prec emax z 0 false.

Definition mul (x y : float) : float := SFmul prec emax x y.
Definition add (x y : float) : float := SFadd prec emax x y.

(** [a / b] on two ints (operands below [2^53], as list lengths are). *)
Definition truediv (a b : Z) : result float :=
  if b =? 0 then Raise (mk_exn ZeroDivisionError "division by zero")
  else Ok (SFdiv prec emax (of_int a) (of_int b)).

(** The literals [0.7] and [0.3]: the doubles nearest to 7/10 and 3/10. *)
Definition lit_0_7 : float := S754_finite false 6305039478318694 (-53).
Definition lit_0_3 : float := S754_finite false 5404319552844595 (-54).

(** [int(x)]: truncation toward zero; [nan] and the infinities raise. *)
Definition to_int (x : float) : result Z :=
  match x with
  | S754_zero _ => Ok 0
  | S754_infinity _ =>
      Raise (mk_exn OverflowError "cannot convert float infinity to integer")
  | S754_nan => Raise (mk_exn ValueError "cannot convert float NaN to integer")
  | S754_finite s m e =>
      let magnitude :=
        if 0 <=? e then Z.pos m * 2 ^ e else Z.pos m / 2 ^ (- e) in
      Ok (if s then - magnitude else magnitude)
  end.

Definition leb (x y : float) : bool := SFleb x y.

(** The exact value of a finite float, as a rational. *)
Definition to_Q (x : float) : Q :=
  match x with
  | S754_finite s m e =>
      let v := if 0 <=? e then inject_Z (Z.pos m * 2 ^ e)
               else Qmake (Z.pos m) (Z.to_pos (2 ^ (- e))) in
      if s then Qopp v else v
  | _ => 0%Q
  end.

End PyFloat.

(* ===================================================================== *)
(** * app.py *)
(* ===================================================================== *)

Module App.

Import Py.

(** ** The embedding backend (external) *)

(** The sentence-embedding model and the similarity of two embeddings.
    Loading the model and encoding a list of sentences may raise. *)
Record Backend : Type := mk_backend {
  model : Type;
  embedding : Type;
  load_sentence_transformer : result model;
  encode : model -> list string -> result (list embedding);
  cosine : embedding -> embedding -> Q
}.

(** A NumPy scalar: a number or [nan]. *)
Inductive npfloat : Type :=
| Num (q : Q)
| NaN.

Section Semantic.

Variable B : Backend.

(** [sklearn.metrics.pairwise.cosine_similarity(X, Y)]: one row per
    element of [X], one column per element of [Y]; an input without
    samples is rejected with [ValueError]. *)
Definition cosine_similarity (X Y : list (embedding B))
  : result (list (list Q)) :=
  match X, Y with
  | [], _ | _, [] =>
      Raise (mk_exn ValueError "Found array with 0 sample(s)")
  | _, _ => Ok (map (fun x => map (cosine B x) Y) X)
  end.

(** [np.max(row)]; a zero-size row has no maximum. *)
Definition np_max (row : list Q) : result Q :=
  match row with
  | [] =>
      Raise (mk_exn ValueError
               "zero-size array to reduction operation maximum which has no identity")
  | q :: rest => Ok (fold_left Qmax rest q)
  end.

(** [np.max(matrix, axis=1)] *)
Fixpoint np_max_axis1 (matrix : list (list Q)) : result (list Q) :=
  match matrix with
  | [] => Ok []
  | row :: rows =>
      m <- np_max row ;;
      ms <- np_max_axis1 rows ;;
      Ok (m :: ms)
  end.

Definition Qsum (l : list Q) : Q := fold_right Qplus 0%Q l.

(** [np.mean(values)], idealised: the exact mean ([AppF32.np_mean] is the
    float32 computation); the mean of nothing is [nan]. *)
Definition np_mean (values : list Q) : npfloat :=
  match values with
  | [] => NaN
  | _ => Num (Qsum values / inject_Z (Z.of_nat (List.length values)))
  end.

(** [x * 100], idealised: the exact product ([AppF32.times_100] is the
    float32 product). *)
Definition times_100 (x : npfloat) : npfloat :=
  match x with
  | Num q => Num (q * 100)
  | NaN => NaN
  end.

(** [int(x)]: truncation toward zero; [int(nan)] raises [ValueError]. *)
Definition int_of_npfloat (x : npfloat) : result Z :=
  match x with
  | Num q => Ok (Z.quot (Qnum q) (Z.pos (Qden q)))
  | NaN => Raise (mk_exn ValueError "cannot convert float NaN to integer")
  end.

(** [[sent.strip() for sent in text.split('.') if len(sent.strip()) > 10]] *)
Definition sentences (text : string) : list string :=
  map strip (filter (fun sent => 10 <? len (strip sent)) (split "." text)).

(** The sentence list with its short-text rule: with fewer than three
    sentences the full text is the only unit. *)
Definition segment (text : string) : list string :=
  let text_sentences := sentences text in
  if Z.of_nat (List.length text_sentences) <? 3 then [text]
  else text_sentences.

(** The [try] block of [calculate_semantic_similarity]. *)
Definition semantic_try (resume_text job_description : pyval) : result Z :=
  model <- load_sentence_transformer B ;;
  resume <- str_method "split" resume_text ;;
  jd <- str_method "split" job_description ;;
  let resume_sentences := segment resume in
  let jd_sentences := segment jd in
  resume_embeddings <- encode B model resume_sentences ;;
  jd_embeddings <- encode B model jd_sentences ;;
  similarity_matrix <- cosine_similarity resume_embeddings jd_embeddings ;;
  max_similarities <- np_max_axis1 similarity_matrix ;;
  let overall_similarity := np_mean max_similarities in
  percentage_score <- int_of_npfloat (times_100 overall_similarity) ;;
  Ok (Z.max 10 (Z.min 95 percentage_score)).

End Semantic.

(** ** The keyword fallback scorer *)

Definition technical_skills : list string :=
  [ "python"; "java"; "javascript"; "react"; "node"; "sql"; "mongodb"; "aws";
    "docker"; "kubernetes"; "git"; "html"; "css"; "angular"; "vue"; "php";
    "c++"; "c#"; ".net"; "spring"; "django"; "flask"; "express"; "mysql";
    "postgresql"; "redis"; "elasticsearch"; "machine learning"; "ai";
    "data science"; "tensorflow"; "pytorch"; "pandas"; "numpy"; "api"; "rest";
    "graphql"; "microservices"; "devops"; "ci/cd"; "jenkins"; "terraform";
    "azure"; "gcp"; "linux"; "windows"; "android"; "ios"; "swift"; "kotlin";
    "flutter"; "blockchain"; "solidity"; "web3"; "rust"; "go"; "scala"; "r";
    "matlab"; "tableau" ].

Definition soft_skills : list string :=
  [ "leadership"; "communication"; "teamwork"; "problem solving";
    "analytical"; "project management"; "agile"; "scrum"; "collaboration";
    "mentoring"; "creativity"; "adaptability"; "time management";
    "critical thinking"; "decision making" ].

(** [len(l)] *)
Definition llen {A : Type} (l : list A) : Z := Z.of_nat (List.length l).

(** [[skill for skill in skills if skill in text]] *)
Definition skills_in (text : string) (skills : list string) : list string :=
  filter (fun skill => contains skill text) skills.

(** [(len(matched) / max(len(wanted), 1)) * 100 if wanted else default] *)
Definition category_score (matched wanted : list string) (default : Z)
  : result PyFloat.float :=
  match wanted with
  | [] => Ok (PyFloat.of_int default)
  | _ :: _ =>
      ratio <- PyFloat.truediv (llen matched) (Z.max (llen wanted) 1) ;;
      Ok (PyFloat.mul ratio (PyFloat.of_int 100))
  end.

(** The intermediate values of the fallback scorer. *)
Record fallback_state : Type := mk_fallback_state {
  jd_technical : list string;
  jd_soft : list string;
  resume_technical : list string;
  resume_soft : list string;
  technical_score : PyFloat.float;
  soft_score : PyFloat.float;
  weighted_score : PyFloat.float
}.

(** The [try] block of [calculate_keyword_fallback_score], up to the
    weighted score. *)
Definition fallback_locals (resume_text job_description : pyval)
  : result fallback_state :=
  resume_lower <- str_method "lower" resume_text ;;
  jd_lower <- str_method "lower" job_description ;;
  let resume_lower := lower resume_lower in
  let jd_lower := lower jd_lower in
  let jd_technical := skills_in jd_lower technical_skills in
  let jd_soft := skills_in jd_lower soft_skills in
  let resume_technical := skills_in resume_lower jd_technical in
  let resume_soft := skills_in resume_lower jd_soft in
  technical_score <- category_score resume_technical jd_technical 60 ;;
  soft_score <- category_score resume_soft jd_soft 70 ;;
  let weighted_score :=
    PyFloat.add (PyFloat.mul technical_score PyFloat.lit_0_7)
                (PyFloat.mul soft_score PyFloat.lit_0_3) in
  Ok (mk_fallback_state jd_technical jd_soft resume_technical resume_soft
        technical_score soft_score weighted_score).

(** The whole [try] block: [return max(15, min(90, int(weighted_score)))]. *)
Definition fallback_try (resume_text job_description : pyval) : result Z :=
  st <- fallback_locals resume_text job_description ;;
  n <- PyFloat.to_int (weighted_score st) ;;
  Ok (Z.max 15 (Z.min 90 n)).

Definition calculate_keyword_fallback_score
  (resume_text job_description : pyval) : result Z :=
  try_except (fallback_try resume_text job_description)
             (fun _ => Ok 50).

(** [st.error] only displays the message; the handler's value is the
    fallback score. *)
Definition calculate_semantic_similarity (B : Backend)
  (resume_text job_description : pyval) : result Z :=
  try_except (semantic_try B resume_text job_description)
             (fun _ => calculate_keyword_fallback_score resume_text
                         job_description).

(** ** The score-to-feedback mapper *)

(** The returned tuple: message, severity, foreground and background
    colour.  The messages are kept as the UTF-8 bytes of the source. *)
Record feedback : Type := mk_feedback {
  message : string;
  severity : string;
  color : string;
  bg_color : string
}.

Definition get_score_feedback (score : Z) : feedback :=
  if 80 <=? score then
    mk_feedback "🎉 Excellent match! Your resume aligns very well with this job."
                "success" "#28a745" "#d4edda"
  else if 65 <=? score then
    mk_feedback "👍 Good match! Consider highlighting relevant skills more prominently."
                "info" "#17a2b8" "#d1ecf1"
  else if 45 <=? score then
    mk_feedback "⚠️ Moderate match. You may want to tailor your resume for this role."
                "warning" "#ffc107" "#fff3cd"
  else if 25 <=? score then
    mk_feedback "❌ Low match. Consider significant resume adjustments for this position."
                "error" "#dc3545" "#f8d7da"
  else
    mk_feedback "🔴 Very low match. This role may not be suitable or resume needs major updates."
                "error" "#dc3545" "#f8d7da".

(** ** extract_key_sections *)

Inductive section_key : Type := Skills | Experience | Education.

(** The dictionary [sections]: one list of lines per key. *)
Record sections : Type := mk_sections {
  skills : list string;
  experience : list string;
  education : list string
}.

Definition skills_keywords : list string :=
  ["skill"; "technical"; "programming"].
Definition experience_keywords : list string :=
  ["experience"; "work"; "employment"; "career"].
Definition education_keywords : list string :=
  ["education"; "degree"; "university"; "college"].

(** [any(keyword in line_lower for keyword in keywords)] *)
Definition any_keyword (keywords : list string) (line_lower : string) : bool :=
  existsb (fun keyword => contains keyword line_lower) keywords.

(** The [if/elif/elif] chain of the loop body: the section after [line],
    given the section before it. *)
Definition next_section (current_section : option section_key) (line : string)
  : option section_key :=
  let line_lower := strip (lower line) in
  if any_keyword skills_keywords line_lower then Some Skills
  else if any_keyword experience_keywords line_lower then Some Experience
  else if any_keyword education_keywords line_lower then Some Education
  else current_section.

(** [sections[key].append(entry)] *)
Definition append_entry (key : section_key) (entry : string) (s : sections)
  : sections :=
  match key with
  | Skills => mk_sections (skills s ++ [entry]) (experience s) (education s)
  | Experience => mk_sections (skills s) (experience s ++ [entry]) (education s)
  | Education => mk_sections (skills s) (experience s) (education s ++ [entry])
  end.

(** One iteration of [for line in lines]. *)
Definition section_step (state : option section_key * sections) (line : string)
  : option section_key * sections :=
  let current_section := next_section (fst state) line in
  match current_section with
  | Some key =>
      if 5 <? len (strip line)
      then (current_section, append_entry key (strip line) (snd state))
      else (current_section, snd state)
  | None => (current_section, snd state)
  end.

Definition extract_key_sections (text : string) : sections :=
  let lines := split "010" text in
  snd (fold_left section_step lines (None, mk_sections [] [] [])).

(** ** The score breakdown of [main] *)

(** The [if/elif] chain under "Score Breakdown": the label shown for the
    score. *)
Definition score_breakdown (percentage_score : Z) : string :=
  if 80 <=? percentage_score then
    "• **Excellent match** - Apply with confidence"
  else if 65 <=? percentage_score then
    "• **Good match** - Highlight key skills"
  else if 45 <=? percentage_score then
    "• **Moderate match** - Tailor resume"
  else
    "• **Low match** - Consider major changes".

End App.

(* ===================================================================== *)
(** * NumPy scalars: IEEE 754 binary32 *)
(* ===================================================================== *)

Module F32.

Import Py.

Definition prec : Z := 24.
Definition emax : Z := 128.

(** A [np.float32] value. *)
Definition f32 : Type := spec_float.

(** [np.float32(z)] *)
Definition of_int (z : Z) : f32 := binary_normalize prec emax z 0 false.

Definition add (x y : f32) : f32 := SFadd prec emax x y.
Definition mul (x y : f32) : f32 := SFmul prec emax x y.

(** The same value as a binary64 number (exact). *)
Definition to_f64 (x : f32) : spec_float :=
  match x with
  | S754_finite s m e => binary_round 53 1024 s m e
  | _ => x
  end.

(** A binary64 number rounded to binary32. *)
Definition of_f64 (x : spec_float) : f32 :=
  match x with
  | S754_finite s m e => binary_round prec emax s m e
  | _ => x
  end.

(** [x.dtype.type(x / n)] for a float32 scalar [x] and a count [n] of type
    [intp]: the two promote to float64, the quotient is taken there and
    cast back to float32. *)
Definition div_count (x : f32) (n : Z) : f32 :=
  of_f64 (SFdiv 53 1024 (to_f64 x) (binary_normalize 53 1024 n 0 false)).

Definition is_nan (x : f32) : bool :=
  match x with
  | S754_nan => true
  | _ => false
  end.

(** [np.maximum(in1, in2)]: [in1] when [in1 >= in2] or [in1] is [nan],
    else [in2]; so [nan] propagates. *)
Definition maximum (in1 in2 : f32) : f32 :=
  if SFleb in2 in1 || is_nan in1 then in1 else in2.

(** [int(x)]: truncation toward zero, whatever the format; [nan] and the
    infinities raise. *)
Definition to_int (x : f32) : result Z := PyFloat.to_int x.

(** The exact value of a finite float, as a rational. *)
Definition to_Q (x : f32) : Q := PyFloat.to_Q x.

(** ** The pairwise summation of [np.add.reduce] *)

(** [((r0 + r1) + (r2 + r3)) + ((r4 + r5) + (r6 + r7))] *)
Definition sum8 (r : list f32) : f32 :=
  match r with
  | [r0; r1; r2; r3; r4; r5; r6; r7] =>
      add (add (add r0 r1) (add r2 r3)) (add (add r4 r5) (add r6 r7))
  | _ => S754_nan
  end.

(** [r[j] += a[i + j]] for the eight accumulators. *)
Fixpoint add_each (r block : list f32) : list f32 :=
  match r, block with
  | x :: r', y :: block' => add x y :: add_each r' block'
  | _, _ => r
  end.

(** The unrolled loop over [blocks] further blocks of eight. *)
Fixpoint unrolled (blocks : nat) (r a : list f32) : list f32 * list f32 :=
  match blocks with
  | O => (r, a)
  | S blocks' => unrolled blocks' (add_each r (firstn 8 a)) (skipn 8 a)
  end.

(** From 8 to 128 elements: eight accumulators over the full blocks of
    eight, combined as [sum8], then the remaining elements one by one. *)
Definition block_sum (a : list f32) : f32 :=
  let n := List.length a in
  let '(r, rest) := unrolled (n / 8 - 1)%nat (firstn 8 a) (skipn 8 a) in
  fold_left add rest (sum8 r).

(** [pairwise_sum(a, n)]: fewer than 8 elements are added in order,
    starting from [-0.0]; up to 128 go through [block_sum]; more are split
    at [n/2] rounded down to a multiple of 8.  [fuel] bounds the depth of
    the splitting; [length a] is enough ([F32Facts.pairwise_sum_total]). *)
Fixpoint pairwise_sum (fuel : nat) (a : list f32) : option f32 :=
  let n := List.length a in
  if (n <? 8)%nat then Some (fold_left add a (S754_zero true))
  else if (n <=? 128)%nat then Some (block_sum a)
  else
    match fuel with
    | O => None
    | S fuel' =>
        let n2 := (n / 2 - (n / 2) mod 8)%nat in
        match pairwise_sum fuel' (firstn n2 a),
              pairwise_sum fuel' (skipn n2 a) with
        | Some x, Some y => Some (add x y)
        | _, _ => None
        end
    end.

(** [np.add.reduce(a)] on a float32 vector: the identity [0.0] plus the
    pairwise sum. *)
Definition np_sum (a : list f32) : option f32 :=
  match pairwise_sum (List.length a) a with
  | Some s => Some (add (S754_zero false) s)
  | None => None
  end.

End F32.

(* ===================================================================== *)
(** * app.py: the semantic scorer in float32 *)
(* ===================================================================== *)

Module AppF32.

Import Py.

(** The embedding backend, as in [App.Backend], with float32
    similarities. *)
Record Backend : Type := mk_backend {
  model : Type;
  embedding : Type;
  load_sentence_transformer : result model;
  encode : model -> list string -> result (list embedding);
  cosine : embedding -> embedding -> F32.f32
}.

Section Semantic.

Variable B : Backend.

(** [sklearn.metrics.pairwise.cosine_similarity(X, Y)]: one row per
    element of [X], one column per element of [Y]; an input without
    samples is rejected with [ValueError]. *)
Definition cosine_similarity (X Y : list (embedding B))
  : result (list (list F32.f32)) :=
  match X, Y with
  | [], _ | _, [] =>
      Raise (mk_exn ValueError "Found array with 0 sample(s)")
  | _, _ => Ok (map (fun x => map (cosine B x) Y) X)
  end.

(** [np.max(row)]; a zero-size row has no maximum. *)
Definition np_max (row : list F32.f32) : result F32.f32 :=
  match row with
  | [] =>
      Raise (mk_exn ValueError
               "zero-size array to reduction operation maximum which has no identity")
  | x :: rest => Ok (fold_left F32.maximum rest x)
  end.

(** [np.max(matrix, axis=1)] *)
Fixpoint np_max_axis1 (matrix : list (list F32.f32)) : result (list F32.f32) :=
  match matrix with
  | [] => Ok []
  | row :: rows =>
      m <- np_max row ;;
      ms <- np_max_axis1 rows ;;
      Ok (m :: ms)
  end.

(** [np.mean(values)]: the float32 sum divided by the count; the mean of
    nothing is [0.0 / 0 = nan]. *)
Definition np_mean (values : list F32.f32) : F32.f32 :=
  match F32.np_sum values with
  | Some total => F32.div_count total (Z.of_nat (List.length values))
  | None => S754_nan
  end.

(** [x * 100]: the Python int is weak, the product is a float32. *)
Definition times_100 (x : F32.f32) : F32.f32 := F32.mul x (F32.of_int 100).

(** The [try] block of [calculate_semantic_similarity]. *)
Definition semantic_try (resume_text job_description : pyval) : result Z :=
  model <- load_sentence_transformer B ;;
  resume <- str_method "split" resume_text ;;
  jd <- str_method "split" job_description ;;
  let resume_sentences := App.segment resume in
  let jd_sentences := App.segment jd in
  resume_embeddings <- encode B model resume_sentences ;;
  jd_embeddings <- encode B model jd_sentences ;;
  similarity_matrix <- cosine_similarity resume_embeddings jd_embeddings ;;
  max_similarities <- np_max_axis1 similarity_matrix ;;
  let overall_similarity := np_mean max_similarities in
  percentage_score <- F32.to_int (times_100 overall_similarity) ;;
  Ok (Z.max 10 (Z.min 95 percentage_score)).

Definition calculate_semantic_similarity
  (resume_text job_description : pyval) : result Z :=
  try_except (semantic_try resume_text job_description)
             (fun _ => App.calculate_keyword_fallback_score resume_text
                         job_description).

End Semantic.

End AppF32.

(* ===================================================================== *)
(** * src/resume_analyzer.py *)
(* ===================================================================== *)

Module ResumeAnalyzer.

Import Py.

(** The dictionary both [analyze_resume] and [_parse_analysis_result]
    return: always the same six keys. *)
Record analysis : Type := mk_analysis {
  skills_match : string;
  missing_skills : string;
  improvement_tips : string;
  overall_score : string;
  strengths : string;
  weaknesses : string
}.

(** ** The six regular expressions *)

(** [$] without [re.MULTILINE]: the end of the text, or just before a
    newline that ends the text. *)
Definition at_end (rest : string) : bool :=
  match rest with
  | EmptyString => true
  | String c EmptyString => Ascii.eqb c "010"
  | _ => false
  end.

(** The lookahead [(?=Next:|$)], or the bare [$] of the last pattern. *)
Definition lookahead (next : option string) (rest : string) : bool :=
  match next with
  | Some header => startswith header rest || at_end rest
  | None => at_end rest
  end.

(** The lazy group [(.+?)] under [re.DOTALL], followed by the lookahead:
    one character, then as few more as it takes for the lookahead to hold. *)
Fixpoint lazy_group (next : option string) (rest : string) : option string :=
  match rest with
  | EmptyString => None
  | String c rest' =>
      if lookahead next rest' then Some (String c EmptyString)
      else match lazy_group next rest' with
           | Some group => Some (String c group)
           | None => None
           end
  end.

(** The pattern anchored at the start of [text]: the literal header, then
    the group. *)
Definition re_match (header : string) (next : option string) (text : string)
  : option string :=
  if startswith header text
  then lazy_group next (drop (String.length header) text)
  else None.

(** [re.search(header + '(.+?)' + lookahead, text, re.DOTALL)]: the match at
    the leftmost position that has one; the value is [group(1)]. *)
Fixpoint re_search (header : string) (next : option string) (text : string)
  : option string :=
  match re_match header next text with
  | Some group => Some group
  | None =>
      match text with
      | EmptyString => None
      | String _ text' => re_search header next text'
      end
  end.

(** [m.group(1).strip() if m else default] *)
Definition section (m : option string) (default : string) : string :=
  match m with
  | Some group => strip group
  | None => default
  end.

(** The [try] block of [_parse_analysis_result]. *)
Definition parse_try (result : string) : Py.result analysis :=
  let skills_match := re_search "Skills Match:" (Some "Missing Skills:") result in
  let missing_skills := re_search "Missing Skills:" (Some "Improvement Tips:") result in
  let improvement_tips := re_search "Improvement Tips:" (Some "Overall Score:") result in
  let overall_score := re_search "Overall Score:" (Some "Strengths:") result in
  let strengths := re_search "Strengths:" (Some "Weaknesses:") result in
  let weaknesses := re_search "Weaknesses:" None result in
  Ok {| skills_match := section skills_match "Analysis completed";
        missing_skills := section missing_skills "See full analysis";
        improvement_tips := section improvement_tips (take 500 result);
        overall_score := section overall_score "N/A";
        strengths := section strengths "Analysis completed";
        weaknesses := section weaknesses "See improvement tips" |}.

Definition _parse_analysis_result (result : string) : Py.result analysis :=
  try_except (parse_try result)
    (fun _ =>
       Ok {| skills_match := "Analysis completed - see detailed feedback below";
             missing_skills := "Analysis completed - see detailed feedback below";
             improvement_tips := result;
             overall_score := "N/A";
             strengths := "Analysis completed";
             weaknesses := "See detailed feedback" |}).

(** ** analyze_resume *)

(** [s[:n] if len(s) > n else s] *)
Definition truncate (n : nat) (s : string) : string :=
  if Z.of_nat n <? len s then take n s else s.

Section Chain.

(** [self.analysis_chain.run]: the prompt template filled with the two
    texts and sent to the language model; it returns the generated text or
    raises. *)
Variable analysis_chain_run : string -> string -> Py.result string.

Definition analyze_resume (resume_text job_description : string)
  : Py.result analysis :=
  try_except
    (let resume_text := truncate 2000 resume_text in
     let job_description := truncate 1000 job_description in
     result <- analysis_chain_run resume_text job_description ;;
     analysis <- _parse_analysis_result result ;;
     Ok analysis)
    (fun e =>
       Ok {| skills_match := "Analysis encountered an error. Please try again.";
             missing_skills := "Unable to determine missing skills.";
             improvement_tips := ("Error during analysis: " ++ exn_str e)%string;
             overall_score := "N/A";
             strengths := "Analysis incomplete";
             weaknesses := "Analysis incomplete" |}).

End Chain.

(** ** extract_skills *)

(** [s.replace(old, new)] for two one-character strings. *)
Fixpoint replace_char (old new : ascii) (s : string) : string :=
  match s with
  | EmptyString => EmptyString
  | String c s' =>
      String (if Ascii.eqb c old then new else c) (replace_char old new s')
  end.

(** [[skill.strip() for skill in result.replace('\n', ',').split(',')
      if skill.strip()]] *)
Definition parse_skills (result : string) : list string :=
  map strip
    (filter (fun skill => negb (String.eqb (strip skill) ""))
            (split "," (replace_char "010" "," result))).

Section SkillsChain.

(** [skills_chain.run]: the skills prompt filled with the text and sent to
    the language model. *)
Variable skills_chain_run : string -> Py.result string.

(** No [try] here: what the chain raises, [extract_skills] raises. *)
Definition extract_skills (text : string) : Py.result (list string) :=
  result <- skills_chain_run (take 1000 text) ;;
  let skills := parse_skills result in
  Ok (firstn 20 skills).

End SkillsChain.

End ResumeAnalyzer.

(* ===================================================================== *)
(** * src/pdf_extractor.py *)
(* ===================================================================== *)

Module PdfExtractor.

Import Py.

(** The uploaded file object: its bytes and the read position. *)
Record file : Type := mk_file { content : string; position : nat }.

(** [f.read()]: the bytes from the position to the end; the position moves
    to the end. *)
Definition read (f : file) : string * file :=
  (drop (position f) (content f),
   mk_file (content f) (Nat.max (position f) (String.length (content f)))).

(** [f.seek(0)] *)
Definition seek_start (f : file) : file := mk_file (content f) 0.

(** What a call does: it returns a value, or raises an exception, of which
    only [str(e)] is kept (the callers only format it). *)
Inductive outcome (A : Type) : Type :=
| Returned (a : A)
| Raised (message : string).

Arguments Returned {A} a.
Arguments Raised {A} message.

Section Libraries.

(** PyMuPDF: [fitz.open(stream=pdf_bytes, filetype="pdf")] followed by
    [page.get_text()] on every page, in order. *)
Variable fitz_pages : string -> outcome (list string).

(** pdfminer: [extract_text(io.BytesIO(pdf_bytes))]. *)
Variable pdfminer_extract_text : string -> outcome string.

(** [text = ""; for page: text += page.get_text()] *)
Definition page_text (pages : list string) : string :=
  fold_left String.append pages "".

Definition _extract_with_pymupdf (pdf_file : file) : outcome string * file :=
  let (pdf_bytes, pdf_file) := read pdf_file in
  match fitz_pages pdf_bytes with
  | Returned pages => (Returned (strip (page_text pages)), pdf_file)
  | Raised e => (Raised e, pdf_file)
  end.

Definition _extract_with_pdfminer (pdf_file : file) : outcome string * file :=
  let pdf_file := seek_start pdf_file in
  let (pdf_bytes, pdf_file) := read pdf_file in
  match pdfminer_extract_text pdf_bytes with
  | Returned text => (Returned (strip text), pdf_file)
  | Raised e => (Raised e, pdf_file)
  end.

Definition extract_text (pdf_file : file) : outcome string * file :=
  match _extract_with_pymupdf pdf_file with
  | (Returned text, pdf_file) => (Returned text, pdf_file)
  | (Raised e, pdf_file) =>
      match _extract_with_pdfminer pdf_file with
      | (Returned text, pdf_file) => (Returned text, pdf_file)
      | (Raised e2, pdf_file) =>
          (Raised ("Both extraction methods failed. PyMuPDF: " ++ e
                   ++ ", pdfminer: " ++ e2)%string,
           pdf_file)
      end
  end.

(** PyMuPDF again, as [validate_pdf] uses it:
    [fitz.open(stream=pdf_bytes, filetype="pdf")] followed by [doc.close()],
    without reading any page. *)
Variable document : Type.
Variable fitz_open : string -> outcome document.

(** The bare [except:] turns every failure into [False]. *)
Definition validate_pdf (pdf_file : file) : bool * file :=
  let (pdf_bytes, pdf_file) := read pdf_file in
  match fitz_open pdf_bytes with
  | Returned _ => (true, pdf_file)
  | Raised _ => (false, pdf_file)
  end.

End Libraries.

Arguments validate_pdf {document} fitz_open pdf_file.

End PdfExtractor.

(* ===================================================================== *)
(** * src/config.py and the construction of the analyzer *)
(* ===================================================================== *)

Module Config.

Import Py.

Record Config : Type := mk_config {
  provider : string;
  hf_model_name : string;
  hf_temperature : PyFloat.float;
  hf_max_length : Z;
  hf_device : string
}.

(** [cls(provider=provider)]: the dataclass defaults; [__post_init__] does
    nothing for either provider. *)
Definition with_defaults (provider : string) : Config :=
  mk_config provider "microsoft/DialoGPT-medium" PyFloat.lit_0_3 1000 "auto".

Section Env.

(** The process environment, and the built-ins [float] and [int] applied
    to strings. *)
Variable environ : string -> option string.
Variable py_float : string -> result PyFloat.float.
Variable py_int : string -> result Z.

(** [os.getenv(key, default)] *)
Definition getenv (key default : string) : string :=
  match environ key with
  | Some value => value
  | None => default
  end.

Definition from_env : result Config :=
  let provider := lower (getenv "MODEL_PROVIDER" "huggingface") in
  let config := with_defaults provider in
  if String.eqb provider "huggingface" then
    let model_name := getenv "HF_MODEL_NAME" "microsoft/DialoGPT-medium" in
    temperature <- py_float (getenv "HF_TEMPERATURE" "0.3") ;;
    max_length <- py_int (getenv "HF_MAX_LENGTH" "1000") ;;
    let device := getenv "HF_DEVICE" "auto" in
    Ok (mk_config provider model_name temperature max_length device)
  else Ok config.

End Env.

End Config.

Module AnalyzerSetup.

Import Py.

(** The keyword arguments of [transformers.pipeline("text-generation", ...)];
    [return_full_text=False] and [do_sample=True] are the same in both
    calls. *)
Record pipeline_args : Type := mk_pipeline_args {
  model : string;
  tokenizer : option string;
  max_length : Z;
  temperature : PyFloat.float;
  device_map : option string;
  pad_token_id : option Z
}.

Section Transformers.

Variable hf_pipeline : Type.
Variable llm : Type.

(** [transformers.pipeline] and the LangChain wrapper
    [HuggingFacePipeline(pipeline=...)]. *)
Variable pipeline : pipeline_args -> result hf_pipeline.
Variable HuggingFacePipeline : hf_pipeline -> result llm.

(** The literal [0.7] of the fallback call. *)
Definition fallback_args : pipeline_args :=
  mk_pipeline_args "distilgpt2" None 512 PyFloat.lit_0_7 None None.

Definition _setup_huggingface_llm (config : Config.Config) : result llm :=
  try_except
    (hf <- pipeline (mk_pipeline_args (Config.hf_model_name config)
                       (Some (Config.hf_model_name config))
                       (Config.hf_max_length config)
                       (Config.hf_temperature config)
                       (Some (Config.hf_device config))
                       (Some 50256)) ;;
     HuggingFacePipeline hf)
    (fun _ =>
       hf <- pipeline fallback_args ;;
       HuggingFacePipeline hf).

(** The analyzer object, as far as [__init__] decides it: its
    configuration and its language model. *)
Record analyzer : Type := mk_analyzer {
  analyzer_config : Config.Config;
  analyzer_llm : llm
}.

(** [ResumeAnalyzer.__init__]; building the prompt template and the chain
    around the model is left out. *)
Definition init (config : Config.Config) : result analyzer :=
  if String.eqb (Config.provider config) "huggingface" then
    llm <- _setup_huggingface_llm config ;;
    Ok (mk_analyzer config llm)
  else
    Raise (mk_exn ValueError
             ("Unsupported provider: " ++ Config.provider config)%string).

End Transformers.

End AnalyzerSetup.

(* ===================================================================== *)
(** * The specification's vocabulary *)
(* ===================================================================== *)

Module Spec.

Import Py.

(** [clamp(x, lo, hi)] *)
Definition clamp (lo hi x : Z) : Z := Z.max lo (Z.min hi x).

(** Rounding to the nearest integer, ties to even: Python's [round]. *)
Definition round_half_even (q : Q) : Z :=
  let f := Qfloor q in
  match Qcompare (q - inject_Z f) (1 # 2) with
  | Lt => f
  | Gt => f + 1
  | Eq => if Z.even f then f else f + 1
  end.

(** Truncation toward zero: Python's [int]. *)
Definition truncate_toward_zero (q : Q) : Z :=
  if Qle_bool 0 q then Qfloor q else Qceiling q.

(** The largest element of a non-empty list of rationals. *)
Fixpoint maximum (first : Q) (others : list Q) : Q :=
  match others with
  | [] => first
  | q :: others' => Qmax first (maximum q others')
  end.

Section Similarity.

Variable B : App.Backend.

(** The best match of one resume unit among the job-description units. *)
Definition best_match (jd : list (App.embedding B)) (unit : App.embedding B)
  : Q :=
  match map (App.cosine B unit) jd with
  | [] => 0%Q
  | q :: others => maximum q others
  end.

(** The arithmetic mean, over the resume units, of their best match. *)
Definition overall_similarity (resume jd : list (App.embedding B)) : Q :=
  (fold_right (fun unit total => best_match jd unit + total) 0 resume
   / inject_Z (Z.of_nat (List.length resume)))%Q.

(** The semantic score as the specification words it: round, then clamp. *)
Definition rounded_score (resume jd : list (App.embedding B)) : Z :=
  clamp 10 95 (round_half_even (overall_similarity resume jd * 100)).

(** The semantic score with truncation in place of rounding. *)
Definition truncated_score (resume jd : list (App.embedding B)) : Z :=
  clamp 10 95 (truncate_toward_zero (overall_similarity resume jd * 100)).

End Similarity.

(** Segmentation as the specification words it: split on the period, strip
    each span, drop the spans of at most ten characters; fewer than three
    spans collapse to the original text. *)
Definition spans (text : string) : list string :=
  filter (fun span => negb (len span <=? 10)) (map strip (split "." text)).

Definition segment (text : string) : list string :=
  if (List.length (spans text) <? 3)%nat then [text] else spans text.

(** The five feedback tiers and their bands. *)
Inductive tier : Type := Excellent | Good | Moderate | Low | VeryLow.

Definition band (score : Z) : tier :=
  if 80 <=? score then Excellent
  else if (65 <=? score) && (score <=? 79) then Good
  else if (45 <=? score) && (score <=? 64) then Moderate
  else if (25 <=? score) && (score <=? 44) then Low
  else VeryLow.

(** The words by which a feedback message names its tier. *)
Definition tier_name (t : tier) : string :=
  match t with
  | Excellent => "Excellent match"
  | Good => "Good match"
  | Moderate => "Moderate match"
  | Low => "Low match"
  | VeryLow => "Very low match"
  end.

(** The tier a feedback message names, if it names one. *)
Definition tier_of (f : App.feedback) : option tier :=
  find (fun t => contains (tier_name t) (App.message f))
       [Excellent; Good; Moderate; Low; VeryLow].

End Spec.

Module SpecF32.

Import Py.

(** [m] is the greatest element of [row] in the order of the floats; a row
    that holds a [nan] has [nan] for its maximum. *)
Definition is_maximum (row : list F32.f32) (m : F32.f32) : Prop :=
  In m row /\
  if existsb F32.is_nan row then m = S754_nan
  else Forall (fun x => SFleb x m = true) row.

Section Similarity.

Variable B : AppF32.Backend.

(** The similarities of one resume unit to the job-description units. *)
Definition similarities (jd : list (AppF32.embedding B))
  (unit : AppF32.embedding B) : list F32.f32 :=
  map (AppF32.cosine B unit) jd.

(** The best match of one resume unit: [np.maximum] folded over its
    similarities. *)
Definition best_match (jd : list (AppF32.embedding B))
  (unit : AppF32.embedding B) : F32.f32 :=
  match similarities jd unit with
  | [] => S754_nan
  | x :: rest => fold_left F32.maximum rest x
  end.

(** The float32 mean, over the resume units, of their best match. *)
Definition overall_similarity (resume jd : list (AppF32.embedding B))
  : F32.f32 :=
  AppF32.np_mean (map (best_match jd) resume).

(** The percentage: the float32 product of the mean and 100. *)
Definition percentage (resume jd : list (AppF32.embedding B)) : F32.f32 :=
  F32.mul (overall_similarity resume jd) (F32.of_int 100).

(** The semantic score as the specification words it: round, then clamp. *)
Definition rounded_score (resume jd : list (AppF32.embedding B)) : Z :=
  Spec.clamp 10 95 (Spec.round_half_even (F32.to_Q (percentage resume jd))).

(** The semantic score with truncation in place of rounding. *)
Definition truncated_score (resume jd : list (AppF32.embedding B)) : Z :=
  Spec.clamp 10 95
    (Spec.truncate_toward_zero (F32.to_Q (percentage resume jd))).

End Similarity.

(** The order of the floats as an order on triples of integers: the class
    (the infinities outside, zero in the middle), then the exponent and the
    mantissa, both negated for negative numbers. *)
Definition key (x : F32.f32) : Z * Z * Z :=
  match x with
  | S754_nan => (0, 0, 0)
  | S754_infinity true => (-2, 0, 0)
  | S754_infinity false => (2, 0, 0)
  | S754_zero _ => (0, 0, 0)
  | S754_finite true m e => (-1, - e, - Z.pos m)
  | S754_finite false m e => (1, e, Z.pos m)
  end.

Definition key_le (k1 k2 : Z * Z * Z) : Prop :=
  let '(a1, b1, c1) := k1 in
  let '(a2, b2, c2) := k2 in
  a1 < a2 \/ (a1 = a2 /\ (b1 < b2 \/ (b1 = b2 /\ c1 <= c2))).

End SpecF32.

Module FixturesF32.

Import Py.

(** A backend that embeds every sentence alike and reports the float32
    similarity [x] for every pair. *)
Definition constant_backend (x : F32.f32) : AppF32.Backend :=
  {| AppF32.model := unit;
     AppF32.embedding := unit;
     AppF32.load_sentence_transformer := Ok tt;
     AppF32.encode := fun _ sentences => Ok (map (fun _ => tt) sentences);
     AppF32.cosine := fun _ _ => x |}.

(** The float32 numbers nearest to 0.506 and to 0.86. *)
Definition f32_0_506 : F32.f32 := S754_finite false 8489271 (-24).
Definition f32_0_86 : F32.f32 := S754_finite false 14428406 (-24).

End FixturesF32.

(* ===================================================================== *)
(** * Auxiliary definitions: score tables, section occurrences, fixtures *)
(* ===================================================================== *)

Module ScoreTable.

(** The value [(k / n) * 100] of a category score with [k] of [n] wanted
    skills matched. *)
Definition ratio_score (k n : nat) : PyFloat.float :=
  PyFloat.mul
    (SFdiv PyFloat.prec PyFloat.emax (PyFloat.of_int (Z.of_nat k))
       (PyFloat.of_int (Z.of_nat n)))
    (PyFloat.of_int 100).

(** Every value a category score can take over a dictionary of [size]
    terms: the default, and [ratio_score k n] for [k <= n <= size]. *)
Definition score_table (size : nat) (default : Z) : list PyFloat.float :=
  PyFloat.of_int default ::
  flat_map (fun n => map (fun k => ratio_score k n) (seq 0 (S n)))
           (seq 1 size).

(** [0.0 <= x <= 100.0] *)
Definition in_0_100 (x : PyFloat.float) : bool :=
  PyFloat.leb (PyFloat.of_int 0) x && PyFloat.leb x (PyFloat.of_int 100).

End ScoreTable.

Module Occurrence.

Import Py ResumeAnalyzer.

(** [group] is what the pattern of [header] captures in [text]: it follows
    the first occurrence of [header], is not empty, ends where the
    lookahead holds, and no shorter non-empty span does. *)
Definition found (header : string) (next : option string)
  (text group : string) : Prop :=
  exists before rest,
    text = (before ++ header ++ group ++ rest)%string /\
    (forall before' after', text = (before' ++ header ++ after')%string ->
       (String.length before <= String.length before')%nat) /\
    group <> EmptyString /\
    lookahead next rest = true /\
    (forall g1 g2, group = (g1 ++ g2)%string -> g1 <> EmptyString ->
       g2 <> EmptyString -> lookahead next (g2 ++ rest) = false).

(** The pattern of [header] matches nowhere: [header] does not occur in
    [text], or only as its very end. *)
Definition missing (header : string) (text : string) : Prop :=
  forall before after,
    text = (before ++ header ++ after)%string -> after = EmptyString.

(** The value of one key of the parsed dictionary. *)
Definition field_ok (header : string) (next : option string)
  (default text value : string) : Prop :=
  (exists group, found header next text group /\ value = strip group) \/
  (missing header text /\ value = default).

End Occurrence.

Module Fixtures.

Import Py.

(** A backend that embeds every sentence alike and reports the similarity
    [q] for every pair. *)
Definition constant_backend (q : Q) : App.Backend :=
  {| App.model := unit;
     App.embedding := unit;
     App.load_sentence_transformer := Ok tt;
     App.encode := fun _ sentences => Ok (map (fun _ => tt) sentences);
     App.cosine := fun _ _ => q |}.

(** A backend whose model cannot be loaded. *)
Definition failing_backend : App.Backend :=
  {| App.model := unit;
     App.embedding := unit;
     App.load_sentence_transformer :=
       Raise (mk_exn RuntimeError "model unavailable");
     App.encode := fun _ sentences => Ok (map (fun _ => tt) sentences);
     App.cosine := fun _ _ => 0%Q |}.

(** [c * n] *)
Fixpoint replicate (n : nat) (c : ascii) : string :=
  match n with
  | O => EmptyString
  | S n' => String c (replicate n' c)
  end.

(** A chain that answers with its two inputs under two of the headers. *)
Definition echo_chain (resume_text job_description : string)
  : result string :=
  Ok ("Skills Match:" ++ resume_text ++ "Missing Skills:" ++ job_description)%string.

End Fixtures.

Module KeySections.

Import Py App.

(** Every line collected, whatever its section. *)
Definition entries (s : sections) : list string :=
  skills s ++ experience s ++ education s.

(** [len(line.strip()) > 5] *)
Definition is_long (line : string) : bool := 5 <? len (strip line).

(** The line holds none of the eleven section keywords. *)
Definition no_keyword (line : string) : bool :=
  negb (any_keyword
          (skills_keywords ++ experience_keywords ++ education_keywords)
          (strip (lower line))).

(** The dictionary with [lines] under [key] and nothing elsewhere. *)
Definition only (key : section_key) (lines : list string) : sections :=
  match key with
  | Skills => mk_sections lines [] []
  | Experience => mk_sections [] lines []
  | Education => mk_sections [] [] lines
  end.

(** The tier a label names, if it names one. *)
Definition tier_of_label (label : string) : option Spec.tier :=
  find (fun t => contains (Spec.tier_name t) label)
       [Spec.Excellent; Spec.Good; Spec.Moderate; Spec.Low; Spec.VeryLow].

(** The order of the tiers, best first. *)
Definition tier_rank (t : Spec.tier) : Z :=
  match t with
  | Spec.Excellent => 4
  | Spec.Good => 3
  | Spec.Moderate => 2
  | Spec.Low => 1
  | Spec.VeryLow => 0
  end.

(** The summed length of a list of strings. *)
Fixpoint total_length (pieces : list string) : nat :=
  match pieces with
  | [] => 0%nat
  | p :: rest => (String.length p + total_length rest)%nat
  end.

End KeySections.

Module Report.

Import Py ResumeAnalyzer.

(** A value as a well-behaved answer gives it: not empty, without a colon,
    without whitespace at either end. *)
Definition value_ok (v : string) : Prop :=
  v <> "" /\ occurs ":" v = false /\ first_not_space v /\ last_not_space v.

Definition well_formed (a : analysis) : Prop :=
  value_ok (skills_match a) /\ value_ok (missing_skills a) /\
  value_ok (improvement_tips a) /\ value_ok (overall_score a) /\
  value_ok (strengths a) /\ value_ok (weaknesses a).

(** One answer line after its header: a space, the value, a newline. *)
Definition line (v rest : string) : string :=
  ((" " ++ v) ++ String "010" "") ++ rest.

(** The answer in the layout the prompt asks for: the six headers in
    order, each followed by its value on the same line. *)
Definition render (a : analysis) : string :=
  "Skills Match:" ++ line (skills_match a)
  ("Missing Skills:" ++ line (missing_skills a)
  ("Improvement Tips:" ++ line (improvement_tips a)
  ("Overall Score:" ++ line (overall_score a)
  ("Strengths:" ++ line (strengths a)
  ("Weaknesses:" ++ line (weaknesses a) ""))))).

(** No non-empty suffix of [literal] is a prefix of [header] or has
    [header] as a prefix: [header] cannot start inside [literal]. *)
Fixpoint no_start (header literal : string) : bool :=
  match literal with
  | EmptyString => true
  | String _ literal' =>
      negb (startswith header literal || startswith literal header)
      && no_start header literal'
  end.

End Report.

(* ===================================================================== *)
(** * Facts about the runtime fragments *)
(* ===================================================================== *)

Module PyFacts.

Import Py.

Lemma append_nil_r (s : string) : (s ++ "")%string = s.
Proof. induction s as [|c s IH]; simpl; [reflexivity | now rewrite IH]. Qed.

Lemma append_assoc (a b c : string) :
  ((a ++ b) ++ c)%string = (a ++ b ++ c)%string.
Proof. induction a as [|x a IH]; simpl; [reflexivity | now rewrite IH]. Qed.

Lemma length_append (a b : string) :
  String.length (a ++ b) = (String.length a + String.length b)%nat.
Proof. induction a as [|x a IH]; simpl; [reflexivity | now rewrite IH]. Qed.

Lemma startswith_iff (p s : string) :
  startswith p s = true <-> exists r, s = (p ++ r)%string.
Proof.
  revert s; induction p as [|a p IH]; intros s; simpl.
  - split; [intros _; now exists s | reflexivity].
  - destruct s as [|b s].
    + split; [discriminate | intros [r Hr]; discriminate].
    + rewrite andb_true_iff, Ascii.eqb_eq, IH. split.
      * intros [-> [r ->]]. now exists r.
      * intros [r Hr]. injection Hr as -> ->. split; [reflexivity | now exists r].
Qed.

Lemma startswith_append (p r : string) : startswith p (p ++ r) = true.
Proof. apply startswith_iff. now exists r. Qed.

Lemma drop_append (p r : string) : drop (String.length p) (p ++ r) = r.
Proof. induction p as [|a p IH]; simpl; [now destruct r | exact IH]. Qed.

Lemma take_drop (n : nat) (s : string) : (take n s ++ drop n s)%string = s.
Proof.
  revert s; induction n as [|n IH]; intros [|c s]; simpl; try reflexivity.
  now rewrite IH.
Qed.

Lemma take_all (n : nat) (s : string) :
  (String.length s <= n)%nat -> take n s = s.
Proof.
  revert s; induction n as [|n IH]; intros [|c s] H; simpl in *;
    try reflexivity; try lia.
  rewrite IH; [reflexivity | lia].
Qed.

Lemma take_length (n : nat) (s : string) :
  String.length (take n s) = Nat.min n (String.length s).
Proof.
  revert s; induction n as [|n IH]; intros [|c s]; simpl; try reflexivity.
  now rewrite IH.
Qed.

(** [needle in hay] holds exactly when [hay] has [needle] as a substring. *)
Lemma contains_iff (needle hay : string) :
  contains needle hay = true <->
  exists before after, hay = (before ++ needle ++ after)%string.
Proof.
  induction hay as [|c hay IH].
  - simpl. rewrite orb_false_r, startswith_iff. split.
    + intros [r Hr]. now exists "", r.
    + intros [[|b before] [after H]]; [now exists after | discriminate].
  - cbn [contains]. rewrite orb_true_iff, startswith_iff, IH. split.
    + intros [[r Hr] | [before [after H]]].
      * now exists "", r.
      * exists (String c before), after. simpl. now rewrite H.
    + intros [[|b before] [after H]].
      * left. now exists after.
      * right. injection H as _ H. now exists before, after.
Qed.

(** ** [split] and [join] *)

Lemma split_not_nil (sep : ascii) (s : string) : split sep s <> [].
Proof.
  destruct s as [|c s]; simpl; [discriminate|].
  destruct (split sep s); [discriminate|].
  destruct (Ascii.eqb c sep); discriminate.
Qed.

Lemma join_split (sep : ascii) (s : string) :
  join (String sep "") (split sep s) = s.
Proof.
  induction s as [|c s IH]; simpl; [reflexivity|].
  pose proof (split_not_nil sep s) as Hne.
  destruct (split sep s) as [|piece rest]; [contradiction|].
  destruct (Ascii.eqb c sep) eqn:E.
  - apply Ascii.eqb_eq in E. subst c.
    change (join (String sep "") ("" :: piece :: rest))
      with (String sep (join (String sep "") (piece :: rest))).
    now rewrite IH.
  - destruct rest as [|p2 rest]; simpl in *; now rewrite IH.
Qed.

Lemma split_pieces (sep : ascii) (s : string) :
  Forall (fun piece => occurs sep piece = false) (split sep s).
Proof.
  induction s as [|c s IH]; simpl; [now repeat constructor|].
  destruct (split sep s) as [|piece rest]; [now repeat constructor|].
  destruct (Ascii.eqb c sep) eqn:E.
  - constructor; [reflexivity | exact IH].
  - inversion IH as [|? ? Hp Hr]; subst. constructor; [|exact Hr].
    simpl. now rewrite E.
Qed.

(** ** [strip] *)

Lemma lstrip_first (s : string) : first_not_space (lstrip s).
Proof.
  induction s as [|c s IH]; simpl; [exact I|].
  destruct (isspace c) eqn:E; [exact IH | exact E].
Qed.

Lemma rstrip_last (s : string) : last_not_space (rstrip s).
Proof.
  induction s as [|c s IH]; simpl; [exact I|].
  destruct (rstrip s) as [|d t] eqn:E.
  - destruct (isspace c) eqn:Ec; simpl; [exact I | exact Ec].
  - exact IH.
Qed.

Lemma rstrip_first (s : string) : first_not_space s -> first_not_space (rstrip s).
Proof.
  destruct s as [|c s]; simpl; [trivial|]. intros H.
  destruct (rstrip s); [now rewrite H | exact H].
Qed.

Lemma lstrip_decompose (s : string) :
  exists w, s = (w ++ lstrip s)%string /\ all_space w = true.
Proof.
  induction s as [|c s [w [Hw Hs]]]; simpl; [now exists ""|].
  destruct (isspace c) eqn:E.
  - exists (String c w). simpl. rewrite E, Hs. now rewrite <- Hw.
  - now exists "".
Qed.

Lemma rstrip_decompose (s : string) :
  exists w, s = (rstrip s ++ w)%string /\ all_space w = true.
Proof.
  induction s as [|c s [w [Hw Hs]]]; simpl; [now exists ""|].
  destruct (rstrip s) as [|d t] eqn:E.
  - destruct (isspace c) eqn:Ec.
    + exists (String c w). simpl in *. subst w. now rewrite Ec, Hs.
    + exists w. simpl in *. now subst w.
  - exists w. simpl in *. split; [now rewrite <- Hw | exact Hs].
Qed.

(** [s.strip()] removes whitespace from both ends and nothing else. *)
Lemma strip_decompose (s : string) :
  exists before after,
    s = (before ++ strip s ++ after)%string /\
    all_space before = true /\ all_space after = true.
Proof.
  destruct (lstrip_decompose s) as [w1 [H1 S1]].
  destruct (rstrip_decompose (lstrip s)) as [w2 [H2 S2]].
  exists w1, w2. unfold strip. now rewrite <- H2, <- H1.
Qed.

Lemma strip_trimmed (s : string) :
  first_not_space (strip s) /\ last_not_space (strip s).
Proof.
  split; [apply rstrip_first, lstrip_first | apply rstrip_last].
Qed.

End PyFacts.

(* ===================================================================== *)
(** * app.py: segmentation and the feedback mapper *)
(* ===================================================================== *)

Module SegmentFacts.

Import Py PyFacts App.

Lemma occurs_append (c : ascii) (a b : string) :
  occurs c (a ++ b) = occurs c a || occurs c b.
Proof.
  induction a as [|x a IH]; simpl; [reflexivity|].
  now rewrite IH, orb_assoc.
Qed.

Lemma occurs_strip (c : ascii) (s : string) :
  occurs c s = false -> occurs c (strip s) = false.
Proof.
  destruct (strip_decompose s) as [before [after [H _]]].
  intros Hs. rewrite H in Hs. rewrite !occurs_append in Hs.
  apply orb_false_iff in Hs as [_ Hs]. now apply orb_false_iff in Hs as [Hs _].
Qed.

Lemma filter_map_swap {A B : Type} (f : A -> B) (p : B -> bool) (l : list A) :
  map f (filter (fun a => p (f a)) l) = filter p (map f l).
Proof.
  induction l as [|a l IH]; simpl; [reflexivity|].
  destruct (p (f a)); simpl; now rewrite IH.
Qed.

Lemma longer_than_ten (s : string) : (10 <? len s) = negb (len s <=? 10).
Proof. destruct (Z.ltb_spec 10 (len s)), (Z.leb_spec (len s) 10); try reflexivity; lia. Qed.

(** The list comprehension of the source is the specification's
    split-strip-discard pipeline. *)
Lemma sentences_spans (text : string) : sentences text = Spec.spans text.
Proof.
  unfold sentences, Spec.spans.
  rewrite <- (filter_map_swap strip (fun span => negb (len span <=? 10))).
  f_equal. apply filter_ext. intros s. apply longer_than_ten.
Qed.

Lemma spans_units (text : string) :
  Forall (fun span => 10 < len span /\ occurs "." span = false /\
                      first_not_space span /\ last_not_space span)
         (Spec.spans text).
Proof.
  apply Forall_forall. intros span Hin. unfold Spec.spans in Hin.
  apply filter_In in Hin as [Hin Hlen].
  apply in_map_iff in Hin as [piece [<- Hpiece]].
  pose proof (split_pieces "." text) as Hp.
  rewrite Forall_forall in Hp. specialize (Hp piece Hpiece).
  destruct (strip_trimmed piece) as [Hf Hl].
  repeat split; auto using occurs_strip.
  apply negb_true_iff in Hlen. now apply Z.leb_gt in Hlen.
Qed.

(** C6: segmentation splits on the period, strips whitespace and discards
    spans of at most ten characters; with fewer than three spans left it
    returns the original text, unmodified, as the only unit, and the empty
    text yields the one-element sequence holding the empty string.  It is a
    total function: it never raises. *)
Theorem segment_short_text_rule (text : string) :
  segment text = Spec.segment text /\
  ((List.length (Spec.spans text) < 3)%nat /\ segment text = [text] \/
   (3 <= List.length (Spec.spans text))%nat /\ segment text = Spec.spans text) /\
  Forall (fun span => 10 < len span /\ occurs "." span = false /\
                      first_not_space span /\ last_not_space span)
         (Spec.spans text) /\
  join "." (split "." text) = text /\
  segment "" = [""].
Proof.
  assert (Hseg : segment text = Spec.segment text).
  { unfold segment, Spec.segment. rewrite sentences_spans.
    destruct (Nat.ltb_spec (List.length (Spec.spans text)) 3),
             (Z.ltb_spec (Z.of_nat (List.length (Spec.spans text))) 3);
      try reflexivity; lia. }
  split; [exact Hseg|]. split.
  - rewrite Hseg. unfold Spec.segment.
    destruct (Nat.ltb_spec (List.length (Spec.spans text)) 3); [left | right];
      split; auto.
  - split; [apply spans_units|]. split; [apply join_split | reflexivity].
Qed.

(** C7: the feedback mapper is total and partitions the integer scores
    into five bands with inclusive lower bounds: at least 80 is Excellent,
    65 to 79 Good, 45 to 64 Moderate, 25 to 44 Low, below 25 Very low; so
    80 is Excellent, 79 Good, 45 Moderate and 24 Very low. *)
Theorem get_score_feedback_bands (score : Z) :
  Spec.tier_of (get_score_feedback score) = Some (Spec.band score) /\
  (Spec.band score = Spec.Excellent <-> 80 <= score) /\
  (Spec.band score = Spec.Good <-> 65 <= score <= 79) /\
  (Spec.band score = Spec.Moderate <-> 45 <= score <= 64) /\
  (Spec.band score = Spec.Low <-> 25 <= score <= 44) /\
  (Spec.band score = Spec.VeryLow <-> score < 25) /\
  Spec.tier_of (get_score_feedback 80) = Some Spec.Excellent /\
  Spec.tier_of (get_score_feedback 79) = Some Spec.Good /\
  Spec.tier_of (get_score_feedback 45) = Some Spec.Moderate /\
  Spec.tier_of (get_score_feedback 24) = Some Spec.VeryLow.
Proof.
  split.
  { unfold get_score_feedback, Spec.band.
    destruct (Z.leb_spec 80 score); [reflexivity|].
    destruct (Z.leb_spec 65 score), (Z.leb_spec score 79); try lia;
      [reflexivity|].
    destruct (Z.leb_spec 45 score), (Z.leb_spec score 64); try lia;
      [reflexivity|].
    destruct (Z.leb_spec 25 score), (Z.leb_spec score 44); try lia;
      reflexivity. }
  unfold Spec.band.
  destruct (Z.leb_spec 80 score);
    [| destruct (Z.leb_spec 65 score), (Z.leb_spec score 79); simpl;
       [| | | ]; try lia;
       [| destruct (Z.leb_spec 45 score), (Z.leb_spec score 64); simpl;
          try lia;
          [| destruct (Z.leb_spec 25 score), (Z.leb_spec score 44); simpl;
             try lia ]]];
    repeat split; intros; try lia; try discriminate; try reflexivity.
Qed.

End SegmentFacts.

(* ===================================================================== *)
(** * app.py: the keyword fallback scorer *)
(* ===================================================================== *)

Module FallbackFacts.

Import Py PyFacts App ScoreTable.

(** The literals are the doubles nearest to 7/10 and 3/10: correctly
    rounded quotients, within half a unit in the last place. *)
Lemma literals_nearest :
  PyFloat.lit_0_7 = SFdiv PyFloat.prec PyFloat.emax (PyFloat.of_int 7) (PyFloat.of_int 10) /\
  PyFloat.lit_0_3 = SFdiv PyFloat.prec PyFloat.emax (PyFloat.of_int 3) (PyFloat.of_int 10) /\
  Z.abs (10 * 6305039478318694 - 7 * 2 ^ 53) <= 5 /\
  Z.abs (10 * 5404319552844595 - 3 * 2 ^ 54) <= 10.
Proof. repeat split; vm_compute; solve [reflexivity | discriminate]. Qed.

Lemma clamp_bounds (lo hi x : Z) : lo <= hi -> lo <= Z.max lo (Z.min hi x) <= hi.
Proof. lia. Qed.

Lemma skills_in_app (text : string) (a b : list string) :
  skills_in text (a ++ b) = skills_in text a ++ skills_in text b.
Proof. apply filter_app. Qed.

Lemma skills_in_incl (text : string) (skills : list string) :
  incl (skills_in text skills) skills.
Proof. intros s H. now apply filter_In in H. Qed.

Lemma skills_in_length (text : string) (skills : list string) :
  (List.length (skills_in text skills) <= List.length skills)%nat.
Proof. apply filter_length_le. Qed.

Lemma skills_in_none (text : string) (skills : list string) :
  existsb (fun skill => contains skill text) skills = false ->
  skills_in text skills = [].
Proof.
  induction skills as [|s skills IH]; simpl; [reflexivity|].
  intros H. apply orb_false_iff in H as [Hs H]. rewrite Hs. auto.
Qed.

Lemma skills_in_ext (t1 t2 : string) (skills : list string) :
  (forall skill, In skill skills -> contains skill t1 = contains skill t2) ->
  skills_in t1 skills = skills_in t2 skills.
Proof.
  induction skills as [|s skills IH]; intros H; simpl; [reflexivity|].
  rewrite (H s (or_introl eq_refl)), IH; [reflexivity|].
  intros skill Hin. apply H. now right.
Qed.

(** A category score is one of the table's values. *)
Lemma category_score_in_table (matched wanted : list string) (default : Z)
  (size : nat) :
  (List.length matched <= List.length wanted <= size)%nat ->
  exists t, category_score matched wanted default = Ok t /\
            In t (score_table size default).
Proof.
  intros [Hk Hn]. destruct wanted as [|w wanted].
  - exists (PyFloat.of_int default). split; [reflexivity | now left].
  - unfold category_score, PyFloat.truediv, llen.
    set (n := List.length (w :: wanted)) in *.
    assert (Hn1 : (1 <= n)%nat) by (subst n; simpl; lia).
    replace (Z.max (Z.of_nat n) 1) with (Z.of_nat n) by lia.
    destruct (Z.eqb_spec (Z.of_nat n) 0) as [E|_]; [lia|].
    exists (ratio_score (List.length matched) n). split; [reflexivity|].
    right. apply in_flat_map. exists n. split; [apply in_seq; lia|].
    apply in_map_iff. exists (List.length matched). split; [reflexivity|].
    apply in_seq. lia.
Qed.

Lemma technical_table_bounds :
  forallb in_0_100 (score_table 60 60) = true.
Proof. vm_compute. reflexivity. Qed.

Lemma soft_table_bounds :
  forallb in_0_100 (score_table 15 70) = true.
Proof. vm_compute. reflexivity. Qed.

(** For two strings the locals of the fallback scorer are always computed,
    and both category scores lie between 0.0 and 100.0. *)
Lemma fallback_locals_strings (resume jd : string) :
  exists st, fallback_locals (PyStr resume) (PyStr jd) = Ok st /\
    jd_technical st = skills_in (lower jd) technical_skills /\
    jd_soft st = skills_in (lower jd) soft_skills /\
    resume_technical st = skills_in (lower resume) (jd_technical st) /\
    resume_soft st = skills_in (lower resume) (jd_soft st) /\
    in_0_100 (technical_score st) = true /\
    in_0_100 (soft_score st) = true.
Proof.
  unfold fallback_locals. cbn [str_method bind].
  set (jt := skills_in (lower jd) technical_skills).
  set (js := skills_in (lower jd) soft_skills).
  destruct (category_score_in_table (skills_in (lower resume) jt) jt 60 60)
    as [t [Ht Hint]].
  { split; [apply skills_in_length|].
    etransitivity; [apply skills_in_length | reflexivity]. }
  destruct (category_score_in_table (skills_in (lower resume) js) js 70 15)
    as [s [Hs Hins]].
  { split; [apply skills_in_length|].
    etransitivity; [apply skills_in_length | reflexivity]. }
  rewrite Ht, Hs. cbn [bind]. eexists. split; [reflexivity|].
  cbn [jd_technical jd_soft resume_technical resume_soft technical_score
       soft_score].
  repeat split; try reflexivity.
  - pose proof technical_table_bounds as Hb. rewrite forallb_forall in Hb. auto.
  - pose proof soft_table_bounds as Hb. rewrite forallb_forall in Hb. auto.
Qed.

Lemma fallback_try_bounds (resume_text job_description : pyval) (score : Z) :
  fallback_try resume_text job_description = Ok score -> 15 <= score <= 90.
Proof.
  unfold fallback_try. intros E.
  destruct (fallback_locals resume_text job_description) as [st|]; [|discriminate].
  cbn [bind] in E.
  destruct (PyFloat.to_int (weighted_score st)) as [n|]; [|discriminate].
  cbn [bind] in E. injection E as <-. apply clamp_bounds. lia.
Qed.

Lemma fallback_bounds (resume_text job_description : pyval) :
  exists score,
    calculate_keyword_fallback_score resume_text job_description = Ok score /\
    15 <= score <= 90.
Proof.
  unfold calculate_keyword_fallback_score, try_except.
  destruct (fallback_try resume_text job_description) as [score|e] eqn:E.
  - exists score. split; [reflexivity | now apply fallback_try_bounds in E].
  - exists 50. split; [reflexivity | lia].
Qed.

(** C3: the keyword fallback scorer never raises and returns an integer in
    [15, 90]; when its computation raises, as it does on an argument that is
    not a string, the result is the default score 50. *)
Theorem fallback_never_raises (resume_text job_description : pyval) :
  exists score,
    calculate_keyword_fallback_score resume_text job_description = Ok score /\
    15 <= score <= 90 /\
    (fallback_try resume_text job_description = Ok score \/
     raises (fallback_try resume_text job_description) /\ score = 50) /\
    match resume_text, job_description with
    | PyStr _, PyStr _ => True
    | _, _ => raises (fallback_try resume_text job_description) /\ score = 50
    end.
Proof.
  unfold calculate_keyword_fallback_score, try_except.
  destruct (fallback_try resume_text job_description) as [score|e] eqn:E.
  - exists score. split; [reflexivity|].
    assert (Hb : 15 <= score <= 90) by now apply fallback_try_bounds in E.
    split; [exact Hb|]. split; [now left|].
    destruct resume_text, job_description; try exact I; discriminate E.
  - exists 50. split; [reflexivity|]. split; [lia|].
    assert (Hr : raises (Raise e : result Z)) by (now exists e).
    split; [now right|].
    destruct resume_text, job_description; try exact I; now split.
Qed.

(** C5: on the specification's concrete resume and job description the
    fallback scorer computes technical_score = 100, soft_score = 100 and
    weighted = 100, and returns 90 after clamping to [15, 90]. *)
Theorem fallback_concrete_scenario :
  exists st,
    fallback_locals
      (PyStr "I have experience with python and react and strong leadership skills.")
      (PyStr "Looking for a python developer with react experience and leadership.")
    = Ok st /\
    technical_score st = PyFloat.of_int 100 /\
    soft_score st = PyFloat.of_int 100 /\
    weighted_score st = PyFloat.of_int 100 /\
    PyFloat.to_int (weighted_score st) = Ok 100 /\
    Spec.clamp 15 90 100 = 90 /\
    calculate_keyword_fallback_score
      (PyStr "I have experience with python and react and strong leadership skills.")
      (PyStr "Looking for a python developer with react experience and leadership.")
    = Ok 90.
Proof. eexists. split; [vm_compute; reflexivity|]. repeat split. Qed.

(** C4: when the job description contains no term of either dictionary as
    a case-insensitive substring (the empty string is such a text), the
    fallback scorer uses the defaults technical_score = 60 and
    soft_score = 70 and returns 63, for every resume text. *)
Theorem fallback_default_score (resume jd : string) :
  existsb (fun skill => contains skill (lower jd)) technical_skills = false ->
  existsb (fun skill => contains skill (lower jd)) soft_skills = false ->
  exists st,
    fallback_locals (PyStr resume) (PyStr jd) = Ok st /\
    jd_technical st = [] /\ jd_soft st = [] /\
    technical_score st = PyFloat.of_int 60 /\
    soft_score st = PyFloat.of_int 70 /\
    weighted_score st = PyFloat.of_int 63 /\
    Spec.clamp 15 90 63 = 63 /\
    calculate_keyword_fallback_score (PyStr resume) (PyStr jd) = Ok 63.
Proof.
  intros Ht Hs.
  assert (E : fallback_locals (PyStr resume) (PyStr jd) =
              Ok (mk_fallback_state [] [] [] [] (PyFloat.of_int 60)
                    (PyFloat.of_int 70) (PyFloat.of_int 63))).
  { unfold fallback_locals. cbn [str_method bind].
    rewrite (skills_in_none _ _ Ht), (skills_in_none _ _ Hs). reflexivity. }
  eexists. split; [exact E|]. repeat split.
  unfold calculate_keyword_fallback_score, fallback_try. rewrite E. reflexivity.
Qed.

Lemma fallback_default_score_witness :
  exists st,
    fallback_locals (PyStr "Ten years at sea.") (PyStr "") = Ok st /\
    jd_technical st = [] /\ jd_soft st = [] /\
    technical_score st = PyFloat.of_int 60 /\
    soft_score st = PyFloat.of_int 70 /\
    weighted_score st = PyFloat.of_int 63 /\
    Spec.clamp 15 90 63 = 63 /\
    calculate_keyword_fallback_score (PyStr "Ten years at sea.") (PyStr "") = Ok 63.
Proof. apply (fallback_default_score "Ten years at sea." ""); reflexivity. Defined.

(** C10: the resume-matched terms are a subset of the job-description
    terms of the same dictionary, so both category scores lie between 0 and
    100; and two resumes in which the same job-description terms occur get
    the same fallback score: dictionary terms absent from the job
    description never influence it. *)
Theorem fallback_ignores_unrequested_skills (resume1 resume2 jd : string) :
  (forall skill,
     In skill (skills_in (lower jd) (technical_skills ++ soft_skills)) ->
     contains skill (lower resume1) = contains skill (lower resume2)) ->
  exists st,
    fallback_locals (PyStr resume1) (PyStr jd) = Ok st /\
    incl (resume_technical st) (jd_technical st) /\
    incl (resume_soft st) (jd_soft st) /\
    incl (jd_technical st) technical_skills /\
    incl (jd_soft st) soft_skills /\
    in_0_100 (technical_score st) = true /\
    in_0_100 (soft_score st) = true /\
    fallback_locals (PyStr resume2) (PyStr jd) = Ok st /\
    calculate_keyword_fallback_score (PyStr resume2) (PyStr jd) =
    calculate_keyword_fallback_score (PyStr resume1) (PyStr jd).
Proof.
  intros Hsame.
  destruct (fallback_locals_strings resume1 jd)
    as [st [E [Hjt [Hjs [Hrt [Hrs [Bt Bs]]]]]]].
  rewrite skills_in_app in Hsame.
  assert (E2 : fallback_locals (PyStr resume2) (PyStr jd) = Ok st).
  { rewrite <- E. unfold fallback_locals. cbn [str_method bind].
    rewrite (skills_in_ext (lower resume2) (lower resume1)
               (skills_in (lower jd) technical_skills)).
    2:{ intros skill H. symmetry. apply Hsame, in_or_app. now left. }
    rewrite (skills_in_ext (lower resume2) (lower resume1)
               (skills_in (lower jd) soft_skills)).
    2:{ intros skill H. symmetry. apply Hsame, in_or_app. now right. }
    reflexivity. }
  exists st. split; [exact E|].
  split; [rewrite Hrt; apply skills_in_incl|].
  split; [rewrite Hrs; apply skills_in_incl|].
  split; [rewrite Hjt; apply skills_in_incl|].
  split; [rewrite Hjs; apply skills_in_incl|].
  split; [exact Bt|]. split; [exact Bs|]. split; [exact E2|].
  unfold calculate_keyword_fallback_score, fallback_try. now rewrite E, E2.
Qed.

Lemma fallback_ignores_unrequested_skills_witness :
  exists st,
    fallback_locals (PyStr "Python coder, also Rust") (PyStr "Python developer") = Ok st /\
    incl (resume_technical st) (jd_technical st) /\
    incl (resume_soft st) (jd_soft st) /\
    incl (jd_technical st) technical_skills /\
    incl (jd_soft st) soft_skills /\
    in_0_100 (technical_score st) = true /\
    in_0_100 (soft_score st) = true /\
    fallback_locals (PyStr "Python coder, also Java") (PyStr "Python developer") = Ok st /\
    calculate_keyword_fallback_score (PyStr "Python coder, also Java") (PyStr "Python developer") =
    calculate_keyword_fallback_score (PyStr "Python coder, also Rust") (PyStr "Python developer").
Proof.
  apply (fallback_ignores_unrequested_skills
           "Python coder, also Rust" "Python coder, also Java" "Python developer").
  intros skill H. vm_compute in H.
  destruct H as [<- | [<- | []]]; reflexivity.
Defined.

End FallbackFacts.

(* ===================================================================== *)
(** * app.py: the semantic scorer *)
(* ===================================================================== *)

Module SemanticFacts.

Import Py PyFacts App.

(** [int()] on a rational truncates toward zero. *)
Lemma quot_truncates (q : Q) :
  Z.quot (Qnum q) (Z.pos (Qden q)) = Spec.truncate_toward_zero q.
Proof.
  destruct q as [n d]. unfold Spec.truncate_toward_zero, Qle_bool. simpl.
  rewrite Z.mul_1_r. destruct (Z.leb_spec 0 n) as [H|H].
  - unfold Qfloor. apply Z.quot_div_nonneg; lia.
  - unfold Qceiling, Qfloor, Qopp. simpl.
    rewrite <- (Z.quot_div_nonneg (- n) (Z.pos d)) by lia.
    rewrite Z.quot_opp_l by lia. lia.
Qed.

Lemma truncate_comp (x y : Q) :
  (x == y)%Q -> Spec.truncate_toward_zero x = Spec.truncate_toward_zero y.
Proof.
  intros H. unfold Spec.truncate_toward_zero.
  rewrite (Qleb_comp 0%Q 0%Q (Qeq_refl 0%Q) x y H).
  now rewrite (Qfloor_comp x y H), (Qceiling_comp x y H).
Qed.

(** Truncation and rounding to nearest differ by at most one. *)
Lemma truncate_within_one (q : Q) :
  (inject_Z (Z.abs (Spec.truncate_toward_zero q)) <= Qabs q)%Q /\
  (Qabs q < inject_Z (Z.abs (Spec.truncate_toward_zero q) + 1))%Q.
Proof.
  rewrite <- quot_truncates. destruct q as [n d].
  unfold Qabs, Qle, Qlt, inject_Z. cbn [Qnum Qden].
  pose proof (Z.quot_abs n (Z.pos d) ltac:(lia)) as Ha.
  rewrite (Z.abs_eq (Z.pos d)) in Ha by lia.
  assert (0 <= Z.abs n) by lia.
  pose proof (Z.quot_rem' (Z.abs n) (Z.pos d)) as Hq.
  pose proof (Z.rem_bound_pos (Z.abs n) (Z.pos d) ltac:(lia) ltac:(lia)) as Hr.
  rewrite <- Ha. split; nia.
Qed.

(** ** Row maxima and the mean *)

Lemma maximum_max (p q : Q) (rest : list Q) :
  (Spec.maximum (Qmax p q) rest == Qmax p (Spec.maximum q rest))%Q.
Proof.
  revert p q; induction rest as [|x rest IH]; intros p q; simpl.
  - reflexivity.
  - symmetry. apply Q.max_assoc.
Qed.

Lemma fold_left_maximum (q : Q) (rest : list Q) :
  (fold_left Qmax rest q == Spec.maximum q rest)%Q.
Proof.
  revert q; induction rest as [|x rest IH]; intros q; simpl.
  - reflexivity.
  - rewrite IH. apply maximum_max.
Qed.

(** [Spec.maximum] is an element of the list and bounds every element. *)
Lemma maximum_spec (q : Q) (rest : list Q) :
  (exists m, In m (q :: rest) /\ (m == Spec.maximum q rest)%Q) /\
  (forall x, In x (q :: rest) -> (x <= Spec.maximum q rest)%Q).
Proof.
  revert q; induction rest as [|y rest IH]; intros q.
  - split; [exists q; split; [now left | reflexivity]|].
    intros x [<- | []]. apply Qle_refl.
  - destruct (IH y) as [[m [Hin Hm]] Hub]. cbn [Spec.maximum]. split.
    + destruct (Q.max_dec q (Spec.maximum y rest)) as [E|E].
      * exists q. split; [now left | now rewrite E].
      * exists m. split; [now right | now rewrite E].
    + intros x [<- | Hx]; [apply Q.le_max_l|].
      eapply Qle_trans; [apply Hub, Hx | apply Q.le_max_r].
Qed.

Section Pipeline.

Variable B : Backend.

Lemma row_maxima (us vs : list (embedding B)) :
  vs <> [] ->
  exists maxes,
    np_max_axis1 (map (fun x => map (cosine B x) vs) us) = Ok maxes /\
    Forall2 (fun u m => (m == Spec.best_match B vs u)%Q) us maxes.
Proof.
  intros Hvs. induction us as [|u us [maxes [E F]]].
  - exists []. split; [reflexivity | constructor].
  - destruct vs as [|v vs']; [contradiction|].
    cbn [map np_max_axis1 np_max bind]. cbn [map] in E. rewrite E. cbn [bind].
    eexists. split; [reflexivity|]. constructor; [|exact F].
    unfold Spec.best_match. cbn [map]. apply fold_left_maximum.
Qed.

Lemma sum_of_maxima (f : embedding B -> Q) (us : list (embedding B))
  (maxes : list Q) :
  Forall2 (fun u m => (m == f u)%Q) us maxes ->
  (Qsum maxes == fold_right (fun u total => f u + total) 0 us)%Q /\
  List.length maxes = List.length us.
Proof.
  induction 1 as [|u m us maxes Hm _ [IH L]]; simpl.
  - split; reflexivity.
  - split; [now rewrite Hm, IH | now rewrite L].
Qed.

(** The NumPy pipeline computes the specification's row-max mean, and the
    percentage is its truncation. *)
Lemma pipeline_score (us vs : list (embedding B)) :
  us <> [] -> vs <> [] ->
  (similarity_matrix <- cosine_similarity B us vs ;;
   max_similarities <- np_max_axis1 similarity_matrix ;;
   int_of_npfloat (times_100 (np_mean max_similarities)))
  = Ok (Spec.truncate_toward_zero (Spec.overall_similarity B us vs * 100)).
Proof.
  intros Hus Hvs.
  destruct (row_maxima us vs Hvs) as [maxes [E F]].
  destruct (sum_of_maxima _ _ _ F) as [Hsum Hlen].
  unfold cosine_similarity.
  destruct us as [|u us']; [contradiction|].
  destruct vs as [|v vs']; [contradiction|].
  cbn [bind]. rewrite E. cbn [bind].
  destruct maxes as [|m maxes']; [discriminate Hlen|].
  unfold np_mean, times_100, int_of_npfloat. rewrite quot_truncates.
  f_equal. apply truncate_comp. unfold Spec.overall_similarity.
  now rewrite Hsum, Hlen.
Qed.

End Pipeline.

(** What a successful [try] block has done. *)
Lemma semantic_try_ok (B : Backend)
  (resume_text job_description : pyval) (score : Z) :
  semantic_try B resume_text job_description = Ok score ->
  exists m resume jd us vs,
    load_sentence_transformer B = Ok m /\
    resume_text = PyStr resume /\ job_description = PyStr jd /\
    encode B m (segment resume) = Ok us /\
    encode B m (segment jd) = Ok vs /\
    score = Spec.truncated_score B us vs /\
    10 <= score <= 95 /\
    calculate_semantic_similarity B resume_text job_description = Ok score.
Proof.
  intros H.
  assert (Hc : calculate_semantic_similarity B resume_text job_description
               = Ok score)
    by (unfold calculate_semantic_similarity; now rewrite H).
  unfold semantic_try in H.
  destruct (load_sentence_transformer B) as [m|] eqn:Em; [|discriminate].
  destruct resume_text as [resume|]; [|discriminate].
  destruct job_description as [jd|]; [|discriminate].
  cbn [bind str_method] in H.
  destruct (encode B m (segment resume)) as [us|] eqn:Eu; [|discriminate].
  destruct (encode B m (segment jd)) as [vs|] eqn:Ev; [|discriminate].
  cbn [bind] in H.
  assert (Hne : us <> [] /\ vs <> []).
  { destruct us, vs; try discriminate H; split; discriminate. }
  destruct Hne as [Hus Hvs].
  pose proof (pipeline_score B us vs Hus Hvs) as P.
  destruct (cosine_similarity B us vs) as [matrix|]; [|discriminate].
  cbn [bind] in H, P.
  destruct (np_max_axis1 matrix) as [maxes|]; [|discriminate].
  cbn [bind] in H, P. rewrite P in H. cbn [bind] in H. injection H as <-.
  exists m, resume, jd, us, vs. repeat split; try reflexivity; try assumption;
    try lia.
Qed.

(** C2: the scoring operation never raises: a failure anywhere in the
    embedding path is caught and the keyword fallback score is returned, so
    the call ends with an integer in [10, 95] on the semantic path or in
    [15, 90] on the fallback path. *)
Theorem calculate_semantic_similarity_never_raises (B : Backend)
  (resume_text job_description : pyval) :
  exists score,
    calculate_semantic_similarity B resume_text job_description = Ok score /\
    (semantic_try B resume_text job_description = Ok score /\
     10 <= score <= 95
     \/
     raises (semantic_try B resume_text job_description) /\
     calculate_keyword_fallback_score resume_text job_description = Ok score /\
     15 <= score <= 90).
Proof.
  destruct (semantic_try B resume_text job_description) as [score|e] eqn:E.
  - destruct (semantic_try_ok B resume_text job_description score E)
      as (m & resume & jd & us & vs & _ & _ & _ & _ & _ & _ & Hb & Hc).
    exists score. split; [exact Hc|]. left. now split.
  - destruct (FallbackFacts.fallback_bounds resume_text job_description)
      as [score [Hf Hb]].
    exists score. unfold calculate_semantic_similarity. rewrite E. cbn.
    split; [exact Hf|]. right. split; [now exists e | now split].
Qed.

End SemanticFacts.

(* ===================================================================== *)
(** * src/resume_analyzer.py *)
(* ===================================================================== *)

Module AnalyzerFacts.

Import Py PyFacts ResumeAnalyzer Occurrence.

(** ** Truncation of the inputs *)

Lemma truncate_take (n : nat) (s : string) : truncate n s = take n s.
Proof.
  unfold truncate, len. destruct (Z.ltb_spec (Z.of_nat n) (Z.of_nat (String.length s))).
  - reflexivity.
  - symmetry. apply take_all. lia.
Qed.

(** C9: the analysis depends only on the first 2000 characters of the
    resume and the first 1000 characters of the job description: two
    calls whose inputs agree on those prefixes run the chain on the same
    arguments and, for the same chain behaviour, return the same result. *)
Theorem analyze_resume_prefix
  (chain : string -> string -> result string)
  (resume1 resume2 jd1 jd2 : string) :
  take 2000 resume1 = take 2000 resume2 ->
  take 1000 jd1 = take 1000 jd2 ->
  truncate 2000 resume1 = truncate 2000 resume2 /\
  truncate 1000 jd1 = truncate 1000 jd2 /\
  analyze_resume chain resume1 jd1 = analyze_resume chain resume2 jd2.
Proof.
  intros Hr Hj. unfold analyze_resume.
  rewrite !truncate_take, Hr, Hj. repeat split.
Qed.

Lemma analyze_resume_prefix_witness :
  truncate 2000 (Fixtures.replicate 2000 "a" ++ "first tail")%string =
  truncate 2000 (Fixtures.replicate 2000 "a" ++ "second")%string /\
  truncate 1000 (Fixtures.replicate 1000 "j" ++ "x")%string =
  truncate 1000 (Fixtures.replicate 1000 "j" ++ "yz")%string /\
  analyze_resume Fixtures.echo_chain
    (Fixtures.replicate 2000 "a" ++ "first tail")%string
    (Fixtures.replicate 1000 "j" ++ "x")%string =
  analyze_resume Fixtures.echo_chain
    (Fixtures.replicate 2000 "a" ++ "second")%string
    (Fixtures.replicate 1000 "j" ++ "yz")%string.
Proof.
  apply (analyze_resume_prefix Fixtures.echo_chain
           (Fixtures.replicate 2000 "a" ++ "first tail")%string
           (Fixtures.replicate 2000 "a" ++ "second")%string
           (Fixtures.replicate 1000 "j" ++ "x")%string
           (Fixtures.replicate 1000 "j" ++ "yz")%string);
    vm_compute; reflexivity.
Defined.

(** ** The regular expressions *)

Lemma lookahead_nil (next : option string) : lookahead next "" = true.
Proof. destruct next as [h|]; simpl; [apply orb_true_r | reflexivity]. Qed.

Lemma append_nonempty_split (g1 g2 : string) (c : ascii) (g : string) :
  String c g = (g1 ++ g2)%string -> g1 <> "" ->
  exists g1', g1 = String c g1' /\ g = (g1' ++ g2)%string.
Proof.
  destruct g1 as [|x g1']; [contradiction|]. simpl. intros H _.
  injection H as -> ->. now exists g1'.
Qed.

(** The lazy group takes the shortest non-empty span after which the
    lookahead holds; it fails only when nothing is left to take. *)
Lemma lazy_group_shortest (next : option string) (rest : string) :
  rest <> "" ->
  exists group after,
    lazy_group next rest = Some group /\
    rest = (group ++ after)%string /\
    group <> "" /\
    lookahead next after = true /\
    (forall g1 g2, group = (g1 ++ g2)%string -> g1 <> "" -> g2 <> "" ->
       lookahead next (g2 ++ after) = false).
Proof.
  induction rest as [|c rest IH]; [contradiction|]. intros _. simpl.
  destruct (lookahead next rest) eqn:L.
  - exists (String c ""), rest. repeat split; try discriminate; auto.
    intros g1 g2 H H1 H2.
    destruct (append_nonempty_split _ _ _ _ H H1) as [g1' [-> H']].
    destruct g1', g2; try discriminate; contradiction.
  - assert (Hne : rest <> "") by (intros ->; now rewrite lookahead_nil in L).
    destruct (IH Hne) as (group & after & E & Hr & Hg & La & Hmin).
    rewrite E. exists (String c group), after.
    repeat split; try discriminate; auto.
    + simpl. now rewrite <- Hr.
    + intros g1 g2 H H1 H2.
      destruct (append_nonempty_split _ _ _ _ H H1) as [g1' [-> H']].
      destruct g1' as [|x g1'].
      * simpl in H'. subst g2. now rewrite <- Hr.
      * apply (Hmin (String x g1') g2); auto. discriminate.
Qed.

Lemma lazy_group_none (next : option string) (rest : string) :
  lazy_group next rest = None -> rest = "".
Proof.
  destruct rest as [|c rest]; [reflexivity|]. intros H.
  destruct (lazy_group_shortest next (String c rest)) as (g & a & E & _);
    [discriminate | congruence].
Qed.

Lemma re_match_some (header : string) (next : option string)
  (text group : string) :
  re_match header next text = Some group ->
  exists rest, text = (header ++ group ++ rest)%string /\
    group <> "" /\ lookahead next rest = true /\
    (forall g1 g2, group = (g1 ++ g2)%string -> g1 <> "" -> g2 <> "" ->
       lookahead next (g2 ++ rest) = false).
Proof.
  unfold re_match. destruct (startswith header text) eqn:S; [|discriminate].
  apply startswith_iff in S as [r ->]. rewrite drop_append. intros E.
  assert (Hne : r <> "") by (intros ->; discriminate E).
  destruct (lazy_group_shortest next r Hne) as (g & a & E' & Hr & Hg & La & Hmin).
  rewrite E in E'. injection E' as <-. exists a. now rewrite <- Hr.
Qed.

Lemma re_match_none (header : string) (next : option string)
  (text after : string) :
  re_match header next text = None ->
  text = (header ++ after)%string -> after = "".
Proof.
  unfold re_match. intros E ->. rewrite startswith_append, drop_append in E.
  now apply lazy_group_none in E.
Qed.

(** A search that finds nothing: the header is absent, or ends the text. *)
Lemma re_search_none (header : string) (next : option string) (text : string) :
  re_search header next text = None -> missing header text.
Proof.
  induction text as [|c text IH]; simpl.
  - destruct (re_match header next "") eqn:M; [discriminate|].
    intros _ [|b before] after H; [|discriminate].
    now apply (re_match_none _ _ _ _ M).
  - destruct (re_match header next (String c text)) eqn:M; [discriminate|].
    intros E [|b before] after H.
    + now apply (re_match_none _ _ _ _ M).
    + injection H as _ H. now apply (IH E before after).
Qed.

(** A search that finds a group: it follows the first occurrence of the
    header and is the shortest non-empty span the lookahead accepts. *)
Lemma re_search_some (header : string) (next : option string)
  (text group : string) :
  re_search header next text = Some group -> found header next text group.
Proof.
  induction text as [|c text IH]; simpl.
  - destruct (re_match header next "") eqn:M; [|discriminate].
    intros E. injection E as ->.
    destruct (re_match_some _ _ _ _ M) as (rest & Ht & Hg & L & Hmin).
    exists "", rest. repeat split; auto. intros; simpl; lia.
  - destruct (re_match header next (String c text)) eqn:M.
    + intros E. injection E as ->.
      destruct (re_match_some _ _ _ _ M) as (rest & Ht & Hg & L & Hmin).
      exists "", rest. repeat split; auto. intros; simpl; lia.
    + intros E. destruct (IH E) as (before & rest & Ht & Hfirst & Hg & L & Hmin).
      exists (String c before), rest. repeat split; auto.
      * simpl. now rewrite <- Ht.
      * intros [|b before'] after' H.
        -- pose proof (re_match_none _ _ _ _ M H) as ->.
           exfalso. simpl in H. rewrite append_nil_r in H.
           apply (f_equal String.length) in H. rewrite Ht in H. simpl in H.
           rewrite !length_append in H.
           destruct group; [contradiction | simpl in H; lia].
        -- injection H as _ H. specialize (Hfirst _ _ H). simpl. lia.
Qed.

Lemma section_field (header : string) (next : option string)
  (default text : string) :
  field_ok header next default text
    (section (re_search header next text) default).
Proof.
  destruct (re_search header next text) as [group|] eqn:E; simpl.
  - left. exists group. split; [now apply re_search_some | reflexivity].
  - right. split; [now apply re_search_none in E | reflexivity].
Qed.

(** C8, as the code has it: for every input string the parser returns all
    six sections and never raises.  A section whose pattern matches holds
    the stripped text between the first occurrence of its header and the
    nearest following point where the next header of the fixed order
    starts or the text ends; a section whose pattern does not match holds
    a default, which is a fixed string for five of the sections and the
    first 500 characters of the input for the improvement tips. *)
Theorem parse_analysis_result_sections (text : string) :
  exists a,
    _parse_analysis_result text = Ok a /\
    field_ok "Skills Match:" (Some "Missing Skills:") "Analysis completed"
      text (skills_match a) /\
    field_ok "Missing Skills:" (Some "Improvement Tips:") "See full analysis"
      text (missing_skills a) /\
    field_ok "Improvement Tips:" (Some "Overall Score:") (take 500 text)
      text (improvement_tips a) /\
    field_ok "Overall Score:" (Some "Strengths:") "N/A"
      text (overall_score a) /\
    field_ok "Strengths:" (Some "Weaknesses:") "Analysis completed"
      text (strengths a) /\
    field_ok "Weaknesses:" None "See improvement tips"
      text (weaknesses a).
Proof.
  eexists. split; [reflexivity|].
  cbn [skills_match missing_skills improvement_tips overall_score strengths
       weaknesses].
  repeat split; apply section_field.
Qed.

(** C8 as stated fails: the default of the improvement tips is not a fixed
    value; two texts without that header get two different values. *)
Lemma improvement_tips_default_varies :
  re_search "Improvement Tips:" (Some "Overall Score:") "No advice." = None /\
  re_search "Improvement Tips:" (Some "Overall Score:") "Nothing to add." = None /\
  _parse_analysis_result "No advice." =
    Ok (mk_analysis "Analysis completed" "See full analysis" "No advice."
          "N/A" "Analysis completed" "See improvement tips") /\
  _parse_analysis_result "Nothing to add." =
    Ok (mk_analysis "Analysis completed" "See full analysis" "Nothing to add."
          "N/A" "Analysis completed" "See improvement tips") /\
  "No advice." <> "Nothing to add.".
Proof. repeat split; try (vm_compute; reflexivity). discriminate. Qed.

End AnalyzerFacts.

(* ===================================================================== *)
(** * app.py: extract_key_sections and the score breakdown *)
(* ===================================================================== *)

Module KeySectionFacts.

Import Py PyFacts App KeySections.

Lemma split_append (sep : ascii) (a b : string) :
  split sep (a ++ String sep b) = split sep a ++ split sep b.
Proof.
  induction a as [|c a IH]; simpl.
  - pose proof (split_not_nil sep b) as Hb.
    destruct (split sep b); [contradiction|]. now rewrite Ascii.eqb_refl.
  - rewrite IH. pose proof (split_not_nil sep a) as Ha.
    destruct (split sep a) as [|p r]; [contradiction|]. simpl.
    now destruct (Ascii.eqb c sep).
Qed.

Lemma any_keyword_app (k1 k2 : list string) (line_lower : string) :
  any_keyword (k1 ++ k2) line_lower =
  any_keyword k1 line_lower || any_keyword k2 line_lower.
Proof. apply existsb_app. Qed.

Lemma next_section_no_keyword (current : option section_key) (line : string) :
  no_keyword line = true -> next_section current line = current.
Proof.
  unfold no_keyword, next_section. rewrite !any_keyword_app.
  intros H. apply negb_true_iff in H.
  apply orb_false_iff in H as [H1 H]. apply orb_false_iff in H as [H2 H3].
  now rewrite H1, H2, H3.
Qed.

Lemma in_entries_append (key : section_key) (entry x : string) (s : sections) :
  In x (entries (append_entry key entry s)) <-> In x (entries s) \/ x = entry.
Proof.
  unfold entries. destruct key; simpl; rewrite !in_app_iff; simpl;
    rewrite ?in_app_iff; simpl; intuition auto.
Qed.

Lemma length_entries_append (key : section_key) (entry : string) (s : sections) :
  List.length (entries (append_entry key entry s)) = S (List.length (entries s)).
Proof.
  unfold entries. destruct key; simpl; rewrite !length_app; simpl;
    rewrite ?length_app; simpl; lia.
Qed.

(** The loop only ever appends stripped lines longer than five characters,
    at most one per such line. *)
Lemma fold_entries (lines : list string) (state : option section_key * sections) :
  (forall x, In x (entries (snd (fold_left section_step lines state))) ->
     In x (entries (snd state)) \/
     exists line, In line lines /\ x = strip line /\ 5 < len x) /\
  (List.length (entries (snd (fold_left section_step lines state))) <=
   List.length (entries (snd state)) + List.length (filter is_long lines))%nat.
Proof.
  revert state; induction lines as [|line lines IH]; intros state.
  - simpl. split; [auto | lia].
  - cbn [fold_left]. destruct (IH (section_step state line)) as [Hin Hlen].
    assert (Hstep :
      (forall x, In x (entries (snd (section_step state line))) ->
         In x (entries (snd state)) \/ (x = strip line /\ 5 < len x)) /\
      (List.length (entries (snd (section_step state line))) <=
       List.length (entries (snd state)) +
       (if is_long line then 1 else 0))%nat).
    { unfold section_step, is_long.
      destruct (next_section (fst state) line) as [key|]; simpl.
      - destruct (Z.ltb_spec 5 (len (strip line))); simpl.
        + split.
          * intros x Hx. apply in_entries_append in Hx as [Hx | ->]; auto.
          * rewrite length_entries_append. lia.
        + split; [auto | lia].
      - split; [auto | lia]. }
    destruct Hstep as [Sin Slen]. split.
    + intros x Hx. destruct (Hin x Hx) as [Hx' | [l [Hl Hx']]].
      * destruct (Sin x Hx') as [Hs | [-> Hs]]; [now left|].
        right. exists line. split; [now left | now split].
      * right. exists l. split; [now right | exact Hx'].
    + cbn [filter]. destruct (is_long line); simpl in *; lia.
Qed.

(** X1: every collected line is a stripped line of the text, longer than five
    characters, and no more lines are collected than the text has such
    lines. *)
Theorem key_sections_entries (text : string) :
  (forall entry, In entry (entries (extract_key_sections text)) ->
     exists line, In line (split "010" text) /\
                  entry = strip line /\ 5 < len entry) /\
  (List.length (entries (extract_key_sections text)) <=
   List.length (filter is_long (split "010" text)))%nat.
Proof.
  unfold extract_key_sections.
  destruct (fold_entries (split "010" text) (None, mk_sections [] [] []))
    as [Hin Hlen].
  split.
  - intros entry H. destruct (Hin entry H) as [[] | H']. exact H'.
  - exact Hlen.
Qed.

Lemma fold_no_section (lines : list string) (s : sections) :
  forallb no_keyword lines = true ->
  fold_left section_step lines (None, s) = (None, s).
Proof.
  induction lines as [|line lines IH]; simpl; [reflexivity|].
  intros H. apply andb_true_iff in H as [Hl H].
  unfold section_step at 2. simpl.
  rewrite (next_section_no_keyword None line Hl). auto.
Qed.

(** X2: lines that come before the first line with a section keyword are
    dropped: a preamble without keywords changes nothing, and a text
    without keywords yields three empty lists. *)
Theorem key_sections_preamble (preamble rest : string) :
  forallb no_keyword (split "010" preamble) = true ->
  extract_key_sections (preamble ++ String "010" rest) =
    extract_key_sections rest /\
  extract_key_sections preamble = mk_sections [] [] [].
Proof.
  intros H. unfold extract_key_sections. split.
  - now rewrite split_append, fold_left_app, fold_no_section.
  - now rewrite fold_no_section.
Qed.

Lemma key_sections_preamble_witness :
  extract_key_sections
    ("Jane Doe" ++ String "010" "Programming languages: OCaml")%string =
    extract_key_sections "Programming languages: OCaml" /\
  extract_key_sections "Jane Doe" = mk_sections [] [] [].
Proof. apply (key_sections_preamble "Jane Doe"). reflexivity. Defined.

Lemma only_append (key : section_key) (lines : list string) (entry : string) :
  append_entry key entry (only key lines) = only key (lines ++ [entry]).
Proof. now destruct key. Qed.

Lemma fold_one_section (key : section_key) (lines : list string)
  (collected : list string) :
  forallb no_keyword lines = true ->
  fold_left section_step lines (Some key, only key collected) =
  (Some key, only key (collected ++ map strip (filter is_long lines))).
Proof.
  revert collected; induction lines as [|line lines IH]; intros collected H.
  - simpl. now rewrite app_nil_r.
  - simpl in H. apply andb_true_iff in H as [Hl H]. cbn [fold_left filter].
    unfold section_step at 2. cbn [fst snd].
    rewrite (next_section_no_keyword (Some key) line Hl).
    unfold is_long at 1. destruct (5 <? len (strip line)).
    + rewrite only_append, IH by exact H. cbn [map].
      now rewrite <- app_assoc.
    + apply IH, H.
Qed.

(** X3: a section is sticky: after a heading that selects a section, every
    following line without a keyword lands in that section, stripped, if it
    is longer than five characters; the heading itself is collected on the
    same condition. *)
Theorem key_sections_one_heading (key : section_key) (heading body : string) :
  occurs "010" heading = false ->
  next_section None heading = Some key ->
  forallb no_keyword (split "010" body) = true ->
  extract_key_sections (heading ++ String "010" body) =
  only key (map strip (filter is_long (heading :: split "010" body))).
Proof.
  intros Hnl Hkey Hbody. unfold extract_key_sections.
  rewrite split_append, fold_left_app.
  assert (Hs : split "010" heading = [heading]).
  { clear Hkey. induction heading as [|c h IH]; [reflexivity|].
    simpl in Hnl. apply orb_false_iff in Hnl as [Hc Hh].
    simpl. rewrite (IH Hh), Hc. reflexivity. }
  rewrite Hs. cbn [fold_left]. unfold section_step at 2. cbn [fst snd].
  rewrite Hkey. cbn [filter]. fold (is_long heading).
  replace (mk_sections [] [] []) with (only key []) by now destruct key.
  destruct (is_long heading).
  - rewrite only_append, fold_one_section by exact Hbody. reflexivity.
  - rewrite fold_one_section by exact Hbody. reflexivity.
Qed.

Lemma key_sections_one_heading_witness :
  extract_key_sections
    ("Work" ++ String "010" ("  Built a compiler  " ++ String "010" "2019"))%string =
  only Experience
    (map strip (filter is_long
       ("Work" :: split "010" ("  Built a compiler  " ++ String "010" "2019")%string))).
Proof.
  apply (key_sections_one_heading Experience "Work"); reflexivity.
Defined.

(** ** Feedback tiers *)

Lemma rank_band (score : Z) :
  tier_rank (Spec.band score) =
  (if 80 <=? score then 1 else 0) + (if 65 <=? score then 1 else 0) +
  (if 45 <=? score then 1 else 0) + (if 25 <=? score then 1 else 0).
Proof.
  unfold Spec.band.
  destruct (Z.leb_spec 80 score), (Z.leb_spec 65 score),
           (Z.leb_spec 45 score), (Z.leb_spec 25 score),
           (Z.leb_spec score 79), (Z.leb_spec score 64),
           (Z.leb_spec score 44);
    cbn [andb tier_rank]; lia.
Qed.

Lemma feedback_tier (score : Z) :
  Spec.tier_of (get_score_feedback score) = Some (Spec.band score).
Proof.
  unfold get_score_feedback, Spec.band.
  destruct (Z.leb_spec 80 score); [reflexivity|].
  destruct (Z.leb_spec 65 score), (Z.leb_spec score 79); try lia;
    [reflexivity|].
  destruct (Z.leb_spec 45 score), (Z.leb_spec score 64); try lia;
    [reflexivity|].
  destruct (Z.leb_spec 25 score), (Z.leb_spec score 44); try lia;
    reflexivity.
Qed.

(** X4: a higher score never gets a lower tier, and the score breakdown of the
    details panel names the tier of the feedback message, except that it
    has no Very low tier: every score under 45 is a Low match there. *)
Theorem feedback_monotone_and_breakdown (score1 score2 : Z) :
  score1 <= score2 ->
  (exists t1 t2,
     Spec.tier_of (get_score_feedback score1) = Some t1 /\
     Spec.tier_of (get_score_feedback score2) = Some t2 /\
     tier_rank t1 <= tier_rank t2) /\
  tier_of_label (score_breakdown score1) =
    (if 45 <=? score1 then Spec.tier_of (get_score_feedback score1)
     else Some Spec.Low).
Proof.
  intros H. split.
  - exists (Spec.band score1), (Spec.band score2).
    split; [apply feedback_tier|]. split; [apply feedback_tier|].
    rewrite !rank_band.
    destruct (Z.leb_spec 80 score1), (Z.leb_spec 80 score2),
             (Z.leb_spec 65 score1), (Z.leb_spec 65 score2),
             (Z.leb_spec 45 score1), (Z.leb_spec 45 score2),
             (Z.leb_spec 25 score1), (Z.leb_spec 25 score2); lia.
  - unfold score_breakdown, get_score_feedback.
    destruct (Z.leb_spec 80 score1); [destruct (Z.leb_spec 45 score1); [reflexivity | lia]|].
    destruct (Z.leb_spec 65 score1); [destruct (Z.leb_spec 45 score1); [reflexivity | lia]|].
    destruct (Z.leb_spec 45 score1); reflexivity.
Qed.

Lemma feedback_monotone_and_breakdown_witness :
  (exists t1 t2,
     Spec.tier_of (get_score_feedback 24) = Some t1 /\
     Spec.tier_of (get_score_feedback 44) = Some t2 /\
     tier_rank t1 <= tier_rank t2) /\
  tier_of_label (score_breakdown 24) =
    (if 45 <=? 24 then Spec.tier_of (get_score_feedback 24) else Some Spec.Low).
Proof. apply (feedback_monotone_and_breakdown 24 44). lia. Defined.

End KeySectionFacts.

(* ===================================================================== *)
(** * app.py: further properties of the two scorers *)
(* ===================================================================== *)

Module ScorerFacts.

Import Py PyFacts App ScoreTable KeySections.

(** ** Segmentation *)

Lemma length_strip (s : string) :
  (String.length (strip s) <= String.length s)%nat.
Proof.
  destruct (strip_decompose s) as [before [after [H _]]].
  rewrite H at 2. rewrite !length_append. lia.
Qed.

Lemma length_join (sep : ascii) (pieces : list string) :
  pieces <> [] ->
  String.length (join (String sep "") pieces) =
  (total_length pieces + (List.length pieces - 1))%nat.
Proof.
  induction pieces as [|p rest IH]; [contradiction|]. intros _.
  destruct rest as [|q rest].
  - simpl. lia.
  - change (join (String sep "") (p :: q :: rest))
      with (p ++ String sep "" ++ join (String sep "") (q :: rest))%string.
    rewrite !length_append, IH by discriminate. simpl. lia.
Qed.

Lemma long_pieces (pieces : list string) :
  (11 * List.length (filter (fun sent => (10 <? len (strip sent))%Z) pieces)
   <= total_length pieces)%nat /\
  (List.length (filter (fun sent => (10 <? len (strip sent))%Z) pieces)
   <= List.length pieces)%nat.
Proof.
  induction pieces as [|p rest [IH1 IH2]]; [simpl; lia|].
  pose proof (length_strip p). cbn [filter total_length].
  destruct (10 <? len (strip p)) eqn:E; cbn [List.length]; [|lia].
  apply Z.ltb_lt in E. unfold len in E. lia.
Qed.

(** X5: segmentation yields one unit or at least three, never none and never
    two; and a text of fewer than 35 characters is always a single unit. *)
Theorem segment_unit_count (text : string) :
  (segment text = [text] \/ (3 <= List.length (segment text))%nat) /\
  segment text <> [] /\
  (if (String.length text <? 35)%nat
   then segment text = [text] else True).
Proof.
  unfold segment.
  destruct (Z.ltb_spec (Z.of_nat (List.length (sentences text))) 3) as [H|H].
  - repeat split; [now left | discriminate | now destruct (_ <? _)%nat].
  - split; [right; lia|]. split; [intros E; rewrite E in H; simpl in H; lia|].
    destruct (Nat.ltb_spec (String.length text) 35) as [Hs|]; [|exact I].
    exfalso. unfold sentences in H. rewrite length_map in H.
    destruct (long_pieces (split "." text)) as [L1 L2].
    pose proof (length_join "." (split "." text) (split_not_nil _ _)) as J.
    rewrite join_split in J. lia.
Qed.

(** ** The keyword fallback scorer at its extremes *)

Lemma skills_in_all (text : string) (skills : list string) :
  (forall skill, In skill skills -> contains skill text = true) ->
  skills_in text skills = skills.
Proof.
  induction skills as [|s skills IH]; intros H; simpl; [reflexivity|].
  rewrite (H s (or_introl eq_refl)), IH; [reflexivity|].
  intros skill Hin. apply H. now right.
Qed.

Lemma skills_in_contains (text : string) (skills : list string) (skill : string) :
  In skill (skills_in text skills) -> contains skill text = true.
Proof.
  induction skills as [|s skills IH]; simpl; [contradiction|].
  destruct (contains s text) eqn:E; [|exact IH].
  intros [<- | H]; [exact E | exact (IH H)].
Qed.

Lemma skills_in_nothing (text : string) (skills : list string) :
  (forall skill, In skill skills -> contains skill text = false) ->
  skills_in text skills = [].
Proof.
  induction skills as [|s skills IH]; intros H; simpl; [reflexivity|].
  rewrite (H s (or_introl eq_refl)). apply IH.
  intros skill Hin. apply H. now right.
Qed.

Lemma full_ratio :
  Forall (fun n => ratio_score n n = PyFloat.of_int 100) (seq 1 60).
Proof.
  cbn [seq]. repeat (constructor; [vm_compute; reflexivity|]). constructor.
Qed.

Lemma zero_ratio :
  Forall (fun n => ratio_score 0 n = S754_zero false) (seq 1 60).
Proof.
  cbn [seq]. repeat (constructor; [vm_compute; reflexivity|]). constructor.
Qed.

Lemma category_score_ratio (matched wanted : list string) (default : Z) :
  wanted <> [] ->
  category_score matched wanted default =
  Ok (ratio_score (List.length matched) (List.length wanted)).
Proof.
  destruct wanted as [|w wanted]; [contradiction|]. intros _.
  unfold category_score, PyFloat.truediv, llen.
  set (n := List.length (w :: wanted)).
  assert (Hn1 : (1 <= n)%nat) by (subst n; simpl; lia).
  replace (Z.max (Z.of_nat n) 1) with (Z.of_nat n) by lia.
  destruct (Z.eqb_spec (Z.of_nat n) 0) as [E|_]; [lia | reflexivity].
Qed.

Lemma category_score_full (wanted : list string) (default : Z) (size : nat) :
  wanted <> [] -> (List.length wanted <= size)%nat -> (size <= 60)%nat ->
  category_score wanted wanted default = Ok (PyFloat.of_int 100).
Proof.
  intros Hne Hs H60. rewrite category_score_ratio by exact Hne. f_equal.
  pose proof full_ratio as F. rewrite Forall_forall in F. apply F.
  apply in_seq. destruct wanted; [contradiction | simpl in *; lia].
Qed.

Lemma category_score_zero (wanted : list string) (default : Z) (size : nat) :
  wanted <> [] -> (List.length wanted <= size)%nat -> (size <= 60)%nat ->
  category_score [] wanted default = Ok (S754_zero false).
Proof.
  intros Hne Hs H60. rewrite category_score_ratio by exact Hne. f_equal.
  pose proof zero_ratio as F. rewrite Forall_forall in F. apply F.
  apply in_seq. destruct wanted; [contradiction | simpl in *; lia].
Qed.

Lemma wanted_sizes (jd : string) :
  (List.length (skills_in (lower jd) technical_skills) <= 60)%nat /\
  (List.length (skills_in (lower jd) soft_skills) <= 15)%nat.
Proof. split; apply FallbackFacts.skills_in_length. Qed.

(** The score of a resume that holds every dictionary term of the job
    description. *)
Lemma full_match_score (resume jd : string) :
  (forall skill,
     In skill (skills_in (lower jd) (technical_skills ++ soft_skills)) ->
     contains skill (lower resume) = true) ->
  calculate_keyword_fallback_score (PyStr resume) (PyStr jd) =
  Ok (match skills_in (lower jd) technical_skills,
            skills_in (lower jd) soft_skills with
      | _ :: _, _ => 90
      | [], _ :: _ => 72
      | [], [] => 63
      end).
Proof.
  intros H. rewrite FallbackFacts.skills_in_app in H.
  destruct (wanted_sizes jd) as [St Ss].
  unfold calculate_keyword_fallback_score, fallback_try, fallback_locals.
  cbn [str_method bind].
  rewrite (skills_in_all (lower resume) (skills_in (lower jd) technical_skills))
    by (intros; apply H, in_or_app; now left).
  rewrite (skills_in_all (lower resume) (skills_in (lower jd) soft_skills))
    by (intros; apply H, in_or_app; now right).
  destruct (skills_in (lower jd) technical_skills) as [|t ts] eqn:Et;
    destruct (skills_in (lower jd) soft_skills) as [|s ss] eqn:Es.
  - reflexivity.
  - rewrite (category_score_full (s :: ss) 70 15) by (try discriminate; lia).
    reflexivity.
  - rewrite (category_score_full (t :: ts) 60 60) by (try discriminate; lia).
    reflexivity.
  - rewrite (category_score_full (t :: ts) 60 60) by (try discriminate; lia).
    rewrite (category_score_full (s :: ss) 70 15) by (try discriminate; lia).
    reflexivity.
Qed.

(** X6: a resume in which every dictionary term of the job description occurs
    gets the fallback score 90 when the job description names a technical
    skill, 72 when it names only soft skills and 63 when it names none; a
    resume equal to the job description is such a resume. *)
Theorem fallback_full_match (resume jd : string) :
  (forall skill,
     In skill (skills_in (lower jd) (technical_skills ++ soft_skills)) ->
     contains skill (lower resume) = true) ->
  calculate_keyword_fallback_score (PyStr resume) (PyStr jd) =
  Ok (match skills_in (lower jd) technical_skills,
            skills_in (lower jd) soft_skills with
      | _ :: _, _ => 90
      | [], _ :: _ => 72
      | [], [] => 63
      end) /\
  calculate_keyword_fallback_score (PyStr jd) (PyStr jd) =
  calculate_keyword_fallback_score (PyStr resume) (PyStr jd).
Proof.
  intros H. split; [exact (full_match_score resume jd H)|].
  rewrite (full_match_score resume jd H). apply full_match_score.
  intros skill Hin. exact (skills_in_contains _ _ _ Hin).
Qed.

Lemma fallback_full_match_witness :
  calculate_keyword_fallback_score
    (PyStr "Agile teamwork, every day") (PyStr "We value TEAMWORK") =
  Ok (match skills_in (lower "We value TEAMWORK") technical_skills,
            skills_in (lower "We value TEAMWORK") soft_skills with
      | _ :: _, _ => 90
      | [], _ :: _ => 72
      | [], [] => 63
      end) /\
  calculate_keyword_fallback_score
    (PyStr "We value TEAMWORK") (PyStr "We value TEAMWORK") =
  calculate_keyword_fallback_score
    (PyStr "Agile teamwork, every day") (PyStr "We value TEAMWORK").
Proof.
  apply (fallback_full_match "Agile teamwork, every day" "We value TEAMWORK").
  intros skill H. vm_compute in H.
  repeat (destruct H as [<- | H]; [reflexivity|]). destruct H.
Defined.

(** X7: a resume in which no dictionary term of the job description occurs
    gets the fallback score 15 when the job description names technical and
    soft skills, 21 when it names only technical skills, 42 when it names
    only soft skills and 63 when it names none. *)
Theorem fallback_no_match (resume jd : string) :
  (forall skill,
     In skill (skills_in (lower jd) (technical_skills ++ soft_skills)) ->
     contains skill (lower resume) = false) ->
  calculate_keyword_fallback_score (PyStr resume) (PyStr jd) =
  Ok (match skills_in (lower jd) technical_skills,
            skills_in (lower jd) soft_skills with
      | _ :: _, _ :: _ => 15
      | _ :: _, [] => 21
      | [], _ :: _ => 42
      | [], [] => 63
      end).
Proof.
  intros H. rewrite FallbackFacts.skills_in_app in H.
  destruct (wanted_sizes jd) as [St Ss].
  unfold calculate_keyword_fallback_score, fallback_try, fallback_locals.
  cbn [str_method bind].
  rewrite (skills_in_nothing (lower resume) (skills_in (lower jd) technical_skills))
    by (intros; apply H, in_or_app; now left).
  rewrite (skills_in_nothing (lower resume) (skills_in (lower jd) soft_skills))
    by (intros; apply H, in_or_app; now right).
  destruct (skills_in (lower jd) technical_skills) as [|t ts] eqn:Et;
    destruct (skills_in (lower jd) soft_skills) as [|s ss] eqn:Es.
  - reflexivity.
  - rewrite (category_score_zero (s :: ss) 70 15) by (try discriminate; lia).
    reflexivity.
  - rewrite (category_score_zero (t :: ts) 60 60) by (try discriminate; lia).
    reflexivity.
  - rewrite (category_score_zero (t :: ts) 60 60) by (try discriminate; lia).
    rewrite (category_score_zero (s :: ss) 70 15) by (try discriminate; lia).
    reflexivity.
Qed.

Lemma fallback_no_match_witness :
  calculate_keyword_fallback_score
    (PyStr "I bake cake") (PyStr "Kotlin and mentoring") =
  Ok (match skills_in (lower "Kotlin and mentoring") technical_skills,
            skills_in (lower "Kotlin and mentoring") soft_skills with
      | _ :: _, _ :: _ => 15
      | _ :: _, [] => 21
      | [], _ :: _ => 42
      | [], [] => 63
      end).
Proof.
  apply (fallback_no_match "I bake cake" "Kotlin and mentoring").
  intros skill H. vm_compute in H.
  repeat (destruct H as [<- | H]; [reflexivity|]). destruct H.
Defined.

End ScorerFacts.

Module MatchingFacts.

Import Py PyFacts App ScoreTable.

(** ** Substring matching *)

Lemma contains_trans (a b text : string) :
  contains a b = true -> contains b text = true -> contains a text = true.
Proof.
  rewrite !contains_iff. intros [p [q ->]] [u [v ->]].
  exists (u ++ p)%string, (q ++ v)%string. now rewrite !append_assoc.
Qed.

Lemma in_skills_in (text : string) (skills : list string) (skill : string) :
  In skill (skills_in text skills) <->
  In skill skills /\ contains skill text = true.
Proof.
  induction skills as [|s skills IH]; simpl; [tauto|].
  destruct (contains s text) eqn:E; simpl; rewrite IH; split.
  - intros [<- | [H1 H2]]; auto.
  - intros [[<- | H1] H2]; auto.
  - intros [H1 H2]; auto.
  - intros [[<- | H1] H2]; [congruence | auto].
Qed.

(** X8: matching is by substring, so a dictionary term that lies inside another
    one is counted whenever the longer one is: if the job description (or
    the resume) is credited with a term, it is credited with every
    dictionary term contained in it, as "java" is in "javascript". *)
Theorem contained_terms_are_counted (resume jd : string) (inner outer : string)
  (st : fallback_state) :
  fallback_locals (PyStr resume) (PyStr jd) = Ok st ->
  In inner technical_skills ->
  contains inner outer = true ->
  (In outer (jd_technical st) -> In inner (jd_technical st)) /\
  (In outer (resume_technical st) -> In inner (resume_technical st)).
Proof.
  intros E Hin Hsub.
  destruct (FallbackFacts.fallback_locals_strings resume jd)
    as [st' [E' [Hjt [_ [Hrt _]]]]].
  rewrite E in E'. injection E' as <-.
  assert (J : In outer (jd_technical st) -> In inner (jd_technical st)).
  { rewrite Hjt, !in_skills_in. intros [_ H]. split; [exact Hin|].
    exact (contains_trans _ _ _ Hsub H). }
  split; [exact J|].
  rewrite Hrt, !in_skills_in. intros [H1 H2]. split; [exact (J H1)|].
  exact (contains_trans _ _ _ Hsub H2).
Qed.

Lemma contained_terms_are_counted_witness :
  (In "javascript"
      (jd_technical (mk_fallback_state ["java"; "javascript"; "r"] []
         ["java"; "r"] [] (ratio_score 2 3) (PyFloat.of_int 70)
         (PyFloat.add (PyFloat.mul (ratio_score 2 3) PyFloat.lit_0_7)
            (PyFloat.mul (PyFloat.of_int 70) PyFloat.lit_0_3)))) ->
   In "java"
      (jd_technical (mk_fallback_state ["java"; "javascript"; "r"] []
         ["java"; "r"] [] (ratio_score 2 3) (PyFloat.of_int 70)
         (PyFloat.add (PyFloat.mul (ratio_score 2 3) PyFloat.lit_0_7)
            (PyFloat.mul (PyFloat.of_int 70) PyFloat.lit_0_3))))) /\
  (In "javascript"
      (resume_technical (mk_fallback_state ["java"; "javascript"; "r"] []
         ["java"; "r"] [] (ratio_score 2 3) (PyFloat.of_int 70)
         (PyFloat.add (PyFloat.mul (ratio_score 2 3) PyFloat.lit_0_7)
            (PyFloat.mul (PyFloat.of_int 70) PyFloat.lit_0_3)))) ->
   In "java"
      (resume_technical (mk_fallback_state ["java"; "javascript"; "r"] []
         ["java"; "r"] [] (ratio_score 2 3) (PyFloat.of_int 70)
         (PyFloat.add (PyFloat.mul (ratio_score 2 3) PyFloat.lit_0_7)
            (PyFloat.mul (PyFloat.of_int 70) PyFloat.lit_0_3))))).
Proof.
  apply (contained_terms_are_counted "Java for years" "JavaScript wanted"
           "java" "javascript").
  - reflexivity.
  - simpl. tauto.
  - reflexivity.
Defined.

(** ** The semantic scorer on identical texts *)

Lemma sum_of_ones (B : Backend) (f : embedding B -> Q)
  (us : list (embedding B)) :
  (forall u, In u us -> (f u == 1)%Q) ->
  (fold_right (fun u total => f u + total) 0 us ==
   inject_Z (Z.of_nat (List.length us)))%Q.
Proof.
  induction us as [|u us IH]; intros H; [reflexivity|].
  cbn [fold_right List.length].
  rewrite (H u (or_introl eq_refl)), IH by (intros; apply H; now right).
  rewrite Nat2Z.inj_succ. unfold Z.succ. rewrite inject_Z_plus. ring.
Qed.

Lemma best_match_self (B : Backend) (us : list (embedding B)) (u : embedding B) :
  (forall x, (cosine B x x == 1)%Q) ->
  (forall x y, (cosine B x y <= 1)%Q) ->
  In u us -> (Spec.best_match B us u == 1)%Q.
Proof.
  intros Hself Hle Hin. unfold Spec.best_match.
  assert (Hrow : In (cosine B u u) (map (cosine B u) us)) by now apply in_map.
  destruct (map (cosine B u) us) as [|q rest] eqn:E; [contradiction|].
  destruct (SemanticFacts.maximum_spec q rest) as [[m [Hm Em]] Hub].
  apply Qle_antisym.
  - rewrite <- Em. rewrite <- E in Hm. apply in_map_iff in Hm as [y [<- _]].
    apply Hle.
  - rewrite <- (Hself u). apply Hub, Hrow.
Qed.

(** X9: with a backend whose similarity is 1 on equal embeddings and never
    above 1, a resume equal to the job description gets the highest
    semantic score, 95. *)
Theorem semantic_identical_texts (B : Backend) (text : string)
  (m : model B) (us : list (embedding B)) :
  load_sentence_transformer B = Ok m ->
  encode B m (segment text) = Ok us ->
  us <> [] ->
  (forall x, (cosine B x x == 1)%Q) ->
  (forall x y, (cosine B x y <= 1)%Q) ->
  calculate_semantic_similarity B (PyStr text) (PyStr text) = Ok 95.
Proof.
  intros Hm Hu Hne Hself Hle.
  unfold calculate_semantic_similarity, semantic_try.
  rewrite Hm. cbn [bind str_method]. rewrite Hu. cbn [bind].
  pose proof (SemanticFacts.pipeline_score B us us Hne Hne) as P.
  destruct (cosine_similarity B us us) as [matrix|]; [|discriminate P].
  cbn [bind] in P |- *.
  destruct (np_max_axis1 matrix) as [maxes|]; [|discriminate P].
  cbn [bind] in P |- *. rewrite P. cbn [bind try_except].
  assert (E : (Spec.overall_similarity B us us * 100 == 100)%Q).
  { unfold Spec.overall_similarity.
    rewrite (sum_of_ones B (Spec.best_match B us) us)
      by (intros; now apply best_match_self).
    assert (Hn : ~ (inject_Z (Z.of_nat (List.length us)) == 0)%Q).
    { destruct us; [contradiction|]. unfold Qeq. simpl. lia. }
    field. exact Hn. }
  rewrite (SemanticFacts.truncate_comp _ _ E). reflexivity.
Qed.

Lemma semantic_identical_texts_witness :
  calculate_semantic_similarity (Fixtures.constant_backend 1)
    (PyStr "Same text.") (PyStr "Same text.") = Ok 95.
Proof.
  apply (semantic_identical_texts (Fixtures.constant_backend 1) "Same text."
           tt [tt]).
  - reflexivity.
  - reflexivity.
  - discriminate.
  - intros x. reflexivity.
  - intros x y. vm_compute. discriminate.
Defined.

End MatchingFacts.

(* ===================================================================== *)
(** * src/resume_analyzer.py: extract_skills and the error path *)
(* ===================================================================== *)

Module SkillsFacts.

Import Py PyFacts ResumeAnalyzer.

Lemma occurs_replace_char (old new : ascii) (s : string) :
  Ascii.eqb new old = false -> occurs old (replace_char old new s) = false.
Proof.
  intros H. induction s as [|c s IH]; simpl; [reflexivity|].
  rewrite IH, orb_false_r. destruct (Ascii.eqb c old) eqn:E; [exact H | exact E].
Qed.

(** A character of a piece is a character of the text that was split. *)
Lemma occurs_piece (sep c : ascii) (s piece : string) :
  In piece (split sep s) -> occurs c piece = true -> occurs c s = true.
Proof.
  revert piece; induction s as [|x s IH]; intros piece; simpl.
  - intros [<- | []]. discriminate.
  - pose proof (split_not_nil sep s) as Hne.
    destruct (split sep s) as [|p rest]; [contradiction|].
    destruct (Ascii.eqb x sep).
    + intros [<- | Hin] Hc; [discriminate|].
      rewrite (IH piece Hin Hc). apply orb_true_r.
    + intros [<- | Hin] Hc.
      * simpl in Hc. apply orb_true_iff in Hc as [Hc | Hc].
        -- now rewrite Hc.
        -- rewrite (IH p (or_introl eq_refl) Hc). apply orb_true_r.
      * rewrite (IH piece (or_intror Hin) Hc). apply orb_true_r.
Qed.

Lemma parse_skills_entries (result : string) :
  Forall (fun skill => skill <> "" /\
                       occurs "," skill = false /\
                       occurs "010" skill = false /\
                       first_not_space skill /\ last_not_space skill)
         (parse_skills result).
Proof.
  apply Forall_forall. intros skill Hin. unfold parse_skills in Hin.
  apply in_map_iff in Hin as [piece [<- Hin]].
  apply filter_In in Hin as [Hin Hne].
  destruct (strip_trimmed piece) as [Hf Hl].
  pose proof (split_pieces "," (replace_char "010" "," result)) as Hp.
  rewrite Forall_forall in Hp. specialize (Hp piece Hin).
  repeat split; auto.
  - intros E. rewrite E in Hne. discriminate.
  - now apply SegmentFacts.occurs_strip.
  - apply SegmentFacts.occurs_strip.
    destruct (occurs "010" piece) eqn:E; [|reflexivity].
    apply (occurs_piece _ _ _ _ Hin) in E.
    rewrite occurs_replace_char in E; [discriminate | reflexivity].
Qed.

(** X10: [extract_skills] runs the chain on the first 1000 characters of the
    text and has no handler: what the chain raises, it raises.  Otherwise it
    returns at most twenty skills, each non-empty, free of commas and
    newlines, and without whitespace at either end. *)
Theorem extract_skills_result (chain : string -> result string) (text : string) :
  match chain (take 1000 text) with
  | Raise e => extract_skills chain text = Raise e
  | Ok result =>
      exists skills,
        extract_skills chain text = Ok skills /\
        skills = firstn 20 (parse_skills result) /\
        (List.length skills <= 20)%nat /\
        Forall (fun skill => skill <> "" /\
                             occurs "," skill = false /\
                             occurs "010" skill = false /\
                             first_not_space skill /\ last_not_space skill)
               skills
  end.
Proof.
  unfold extract_skills. destruct (chain (take 1000 text)) as [result|e];
    [|reflexivity].
  cbn [bind]. eexists. split; [reflexivity|]. split; [reflexivity|].
  split; [apply firstn_le_length|].
  apply Forall_forall. intros skill Hin.
  assert (Hin' : In skill (parse_skills result)).
  { rewrite <- (firstn_skipn 20 (parse_skills result)).
    apply in_or_app. now left. }
  pose proof (parse_skills_entries result) as F.
  rewrite Forall_forall in F. auto.
Qed.

(** X11: [analyze_resume] never raises: when the chain raises on the truncated
    inputs it returns the error dictionary, whose improvement tips carry
    the exception's message; otherwise it returns the parsed answer. *)
Theorem analyze_resume_never_raises
  (chain : string -> string -> result string) (resume jd : string) :
  exists a,
    analyze_resume chain resume jd = Ok a /\
    match chain (take 2000 resume) (take 1000 jd) with
    | Raise e =>
        a = mk_analysis "Analysis encountered an error. Please try again."
              "Unable to determine missing skills."
              ("Error during analysis: " ++ exn_str e)%string
              "N/A" "Analysis incomplete" "Analysis incomplete"
    | Ok result => _parse_analysis_result result = Ok a
    end.
Proof.
  unfold analyze_resume. rewrite !AnalyzerFacts.truncate_take.
  destruct (chain (take 2000 resume) (take 1000 jd)) as [result|e].
  - cbn [bind]. eexists. split; reflexivity.
  - cbn [bind try_except]. eexists. split; reflexivity.
Qed.

End SkillsFacts.

(* ===================================================================== *)
(** * src/pdf_extractor.py *)
(* ===================================================================== *)

Module PdfFacts.

Import Py PyFacts PdfExtractor.

Lemma drop_all (n : nat) (s : string) :
  (String.length s <= n)%nat -> drop n s = "".
Proof.
  revert s; induction n as [|n IH]; intros [|c s] H; simpl in *;
    try reflexivity; try lia.
  apply IH. lia.
Qed.

Section Libraries.

Variable fitz_pages : string -> outcome (list string).
Variable pdfminer_extract_text : string -> outcome string.

(** The cases of [extract_text] and the state it leaves. *)
Lemma extract_text_cases (pdf_file : file) :
  match fitz_pages (drop (position pdf_file) (content pdf_file)) with
  | Returned pages =>
      fst (extract_text fitz_pages pdfminer_extract_text pdf_file) =
      Returned (strip (page_text pages))
  | Raised e =>
      match pdfminer_extract_text (content pdf_file) with
      | Returned text =>
          fst (extract_text fitz_pages pdfminer_extract_text pdf_file) =
          Returned (strip text)
      | Raised e2 =>
          fst (extract_text fitz_pages pdfminer_extract_text pdf_file) =
          Raised ("Both extraction methods failed. PyMuPDF: " ++ e
                  ++ ", pdfminer: " ++ e2)%string
      end
  end /\
  content (snd (extract_text fitz_pages pdfminer_extract_text pdf_file)) =
    content pdf_file /\
  (String.length (content pdf_file) <=
   position (snd (extract_text fitz_pages pdfminer_extract_text pdf_file)))%nat.
Proof.
  unfold extract_text, _extract_with_pymupdf, _extract_with_pdfminer, read,
    seek_start.
  destruct (fitz_pages (drop (position pdf_file) (content pdf_file)))
    as [pages|e]; cbn [content position drop Nat.max].
  - cbn [fst snd content position]. repeat split; lia.
  - destruct (pdfminer_extract_text (content pdf_file)) as [text|e2];
      cbn [fst snd content position]; repeat split; lia.
Qed.

(** X12: PyMuPDF is tried first, on the bytes the file has left to read;
    pdfminer is tried only when PyMuPDF raises, and on the whole file.  The
    text returned is stripped; the call raises only when both raise, with a
    message that quotes both failures; the file is left at its end. *)
Theorem extract_text_outcome (pdf_file : file) :
  match fitz_pages (drop (position pdf_file) (content pdf_file)) with
  | Returned pages =>
      fst (extract_text fitz_pages pdfminer_extract_text pdf_file) =
      Returned (strip (page_text pages))
  | Raised e =>
      match pdfminer_extract_text (content pdf_file) with
      | Returned text =>
          fst (extract_text fitz_pages pdfminer_extract_text pdf_file) =
          Returned (strip text)
      | Raised e2 =>
          fst (extract_text fitz_pages pdfminer_extract_text pdf_file) =
          Raised ("Both extraction methods failed. PyMuPDF: " ++ e
                  ++ ", pdfminer: " ++ e2)%string
      end
  end /\
  (forall text,
     fst (extract_text fitz_pages pdfminer_extract_text pdf_file) =
     Returned text ->
     first_not_space text /\ last_not_space text) /\
  content (snd (extract_text fitz_pages pdfminer_extract_text pdf_file)) =
    content pdf_file /\
  (String.length (content pdf_file) <=
   position (snd (extract_text fitz_pages pdfminer_extract_text pdf_file)))%nat.
Proof.
  destruct (extract_text_cases pdf_file) as (Hcase & Hcontent & Hpos).
  split; [exact Hcase|]. split; [|now split].
  intros text H.
  destruct (fitz_pages (drop (position pdf_file) (content pdf_file)))
    as [pages|e].
  - rewrite Hcase in H. injection H as <-. apply strip_trimmed.
  - destruct (pdfminer_extract_text (content pdf_file)) as [t|e2];
      rewrite Hcase in H; [|discriminate H].
    injection H as <-. apply strip_trimmed.
Qed.

(** X13: reading exhausts the file object: after [validate_pdf] or after one
    [extract_text] nothing is left to read, so a later [extract_text] on
    the same object hands PyMuPDF the empty byte string and returns the
    document's text only through pdfminer, which rewinds. *)
Theorem reused_file_is_exhausted (document : Type)
  (fitz_open : string -> outcome document) (pdf_file : file) (reused : file) :
  reused = snd (validate_pdf fitz_open pdf_file) \/ reused = snd (extract_text fitz_pages pdfminer_extract_text pdf_file) ->
  read reused = ("", reused) /\
  match fitz_pages "" with
  | Returned pages =>
      fst (extract_text fitz_pages pdfminer_extract_text reused) = Returned (strip (page_text pages))
  | Raised e =>
      match pdfminer_extract_text (content pdf_file) with
      | Returned text => fst (extract_text fitz_pages pdfminer_extract_text reused) = Returned (strip text)
      | Raised e2 =>
          fst (extract_text fitz_pages pdfminer_extract_text reused) =
          Raised ("Both extraction methods failed. PyMuPDF: " ++ e
                  ++ ", pdfminer: " ++ e2)%string
      end
  end.
Proof.
  intros H.
  assert (Hc : content reused = content pdf_file /\
               (String.length (content pdf_file) <= position reused)%nat).
  { destruct H as [-> | ->].
    - unfold validate_pdf, read.
      destruct (fitz_open _); cbn [snd content position];
        (split; [reflexivity | lia]).
    - destruct (extract_text_cases pdf_file) as (_ & H1 & H2). now split. }
  destruct Hc as [Hc Hp].
  assert (Hd : drop (position reused) (content reused) = "")
    by (apply drop_all; rewrite Hc; exact Hp).
  split.
  - unfold read. rewrite Hd. f_equal. destruct reused as [c p].
    cbn [content position] in *. f_equal. subst c. lia.
  - destruct (extract_text_cases reused) as (H1 & _).
    rewrite Hd, Hc in H1. exact H1.
Qed.

End Libraries.

Lemma reused_file_is_exhausted_witness :
  read (snd (validate_pdf (document := unit) (fun _ => Raised "not a PDF")
               (mk_file "%PDF" 0))) =
    ("", snd (validate_pdf (document := unit) (fun _ => Raised "not a PDF")
                (mk_file "%PDF" 0))) /\
  match (fun _ : string => @Raised (list string) "no pages") "" with
  | Returned pages =>
      fst (extract_text (fun _ => Raised "no pages") (fun b => Returned b)
             (snd (validate_pdf (document := unit)
                     (fun _ => Raised "not a PDF") (mk_file "%PDF" 0))))
      = Returned (strip (page_text pages))
  | Raised e =>
      match (fun b : string => Returned b) (content (mk_file "%PDF" 0)) with
      | Returned text =>
          fst (extract_text (fun _ => Raised "no pages") (fun b => Returned b)
                 (snd (validate_pdf (document := unit)
                         (fun _ => Raised "not a PDF") (mk_file "%PDF" 0))))
          = Returned (strip text)
      | Raised e2 =>
          fst (extract_text (fun _ => Raised "no pages") (fun b => Returned b)
                 (snd (validate_pdf (document := unit)
                         (fun _ => Raised "not a PDF") (mk_file "%PDF" 0))))
          = Raised ("Both extraction methods failed. PyMuPDF: " ++ e
                    ++ ", pdfminer: " ++ e2)%string
      end
  end.
Proof.
  apply (reused_file_is_exhausted (fun _ => Raised "no pages")
           (fun b => Returned b) unit (fun _ => Raised "not a PDF")
           (mk_file "%PDF" 0)).
  left. reflexivity.
Defined.

End PdfFacts.

(* ===================================================================== *)
(** * src/resume_analyzer.py: parsing a well-formed answer *)
(* ===================================================================== *)

Module ReportFacts.

Import Py PyFacts ResumeAnalyzer Report.

Lemma prefix_dichotomy (header p rest : string) :
  startswith header (p ++ rest) = true ->
  startswith header p = true \/ startswith p header = true.
Proof.
  revert p; induction header as [|a header IH]; intros p; simpl.
  - now left.
  - destruct p as [|b p]; simpl; [now right|].
    destruct (Ascii.eqb a b) eqn:E; simpl; [|discriminate].
    rewrite Ascii.eqb_sym, E. simpl. apply IH.
Qed.

Lemma occurs_prefix (c : ascii) (p s : string) :
  startswith p s = true -> occurs c p = true -> occurs c s = true.
Proof.
  intros H. apply startswith_iff in H as [r ->].
  rewrite SegmentFacts.occurs_append. intros ->. reflexivity.
Qed.

(** A header cannot start inside a colon-free span that ends a line. *)
Lemma no_start_in_field (header q rest : string) :
  occurs ":" header = true -> occurs "010" header = false ->
  occurs ":" q = false ->
  startswith header ((q ++ String "010" "") ++ rest) = false.
Proof.
  intros Hc Hn Hq.
  destruct (startswith header ((q ++ String "010" "") ++ rest)) eqn:E;
    [|reflexivity].
  exfalso. apply prefix_dichotomy in E as [E | E].
  - apply (occurs_prefix ":" _ _ E) in Hc.
    rewrite SegmentFacts.occurs_append, Hq in Hc. discriminate.
  - assert (Ho : occurs "010" (q ++ String "010" "") = true).
    { rewrite SegmentFacts.occurs_append. simpl. apply orb_true_r. }
    apply (occurs_prefix "010" _ _ E) in Ho. congruence.
Qed.

Lemma re_search_cons (header : string) (next : option string)
  (c : ascii) (text : string) :
  startswith header (String c text) = false ->
  re_search header next (String c text) = re_search header next text.
Proof. intros H. simpl. unfold re_match. now rewrite H. Qed.

Lemma re_search_skip_field (header : string) (next : option string)
  (q rest : string) :
  occurs ":" header = true -> occurs "010" header = false ->
  occurs ":" q = false ->
  re_search header next ((q ++ String "010" "") ++ rest) =
  re_search header next rest.
Proof.
  intros Hc Hn. induction q as [|c q IH]; intros Hq.
  - apply re_search_cons.
    exact (no_start_in_field header "" rest Hc Hn eq_refl).
  - pose proof (no_start_in_field header (String c q) rest Hc Hn Hq) as E.
    simpl in Hq. apply orb_false_iff in Hq as [_ Hq].
    cbn [String.append] in *. rewrite re_search_cons by exact E. auto.
Qed.

Lemma re_search_skip_literal (header : string) (next : option string)
  (literal rest : string) :
  no_start header literal = true ->
  re_search header next (literal ++ rest) = re_search header next rest.
Proof.
  induction literal as [|c literal IH]; intros H; [reflexivity|].
  cbn [no_start] in H. apply andb_true_iff in H as [H1 H2].
  apply negb_true_iff in H1.
  change (String c literal ++ rest)%string with (String c (literal ++ rest)).
  rewrite re_search_cons; [auto|].
  destruct (startswith header (String c (literal ++ rest))) eqn:E;
    [|reflexivity].
  change (String c (literal ++ rest)) with (String c literal ++ rest)%string in E.
  apply prefix_dichotomy in E. rewrite <- orb_true_iff in E. congruence.
Qed.

Lemma re_search_here (header : string) (next : option string)
  (rest group : string) :
  lazy_group next rest = Some group ->
  re_search header next (header ++ rest) = Some group.
Proof.
  intros H.
  assert (M : re_match header next (header ++ rest) = Some group).
  { unfold re_match. now rewrite startswith_append, drop_append. }
  destruct (header ++ rest)%string; simpl; now rewrite M.
Qed.

Lemma lazy_group_exact (next : option string) (body rest : string) :
  body <> "" ->
  lookahead next rest = true ->
  (forall s1 s2, body = (s1 ++ s2)%string -> s1 <> "" -> s2 <> "" ->
     lookahead next (s2 ++ rest) = false) ->
  lazy_group next (body ++ rest) = Some body.
Proof.
  induction body as [|c body IH]; [contradiction|]. intros _ L Hmin.
  cbn [String.append lazy_group]. destruct body as [|d body].
  - simpl. now rewrite L.
  - rewrite (Hmin (String c "") (String d body)) by (try discriminate; reflexivity).
    rewrite IH; [reflexivity | discriminate | exact L |].
    intros s1 s2 E H1 H2. apply (Hmin (String c s1) s2); try discriminate; auto.
    simpl. now rewrite E.
Qed.

Lemma at_end_long (a b : string) :
  a <> "" -> b <> "" -> at_end (a ++ b) = false.
Proof. destruct a as [|x [|y a]], b as [|z b]; intros; try contradiction; reflexivity. Qed.

(** What follows a non-empty suffix of a colon-free line is not where the
    group may end. *)
Lemma no_lookahead_in_field (next v rest : string) :
  occurs ":" next = true -> occurs "010" next = false ->
  occurs ":" v = false -> rest <> "" ->
  forall s1 s2,
    ((" " ++ v) ++ String "010" "")%string = (s1 ++ s2)%string ->
    s1 <> "" -> s2 <> "" ->
    lookahead (Some next) (s2 ++ rest) = false.
Proof.
  intros Hc Hn Hv Hr s1 s2 E H1 H2. unfold lookahead.
  rewrite (at_end_long s2 rest H2 Hr), orb_false_r.
  assert (Hs : exists q, s2 = (q ++ String "010" "")%string /\ occurs ":" q = false).
  { clear H1. revert s2 E H2.
    generalize (" " ++ v)%string (eq_refl : occurs ":" (" " ++ v) = occurs ":" v).
    intros w Hw. rewrite Hv in Hw. revert Hw.
    revert s1. induction w as [|c w IH]; intros s1 Hw s2 E H2.
    - destruct s1 as [|x s1]; simpl in E.
      + exists "". now subst s2.
      + injection E as _ E. destruct s1; [|discriminate].
        simpl in E. now subst s2.
    - simpl in Hw. apply orb_false_iff in Hw as [Hx Hw].
      destruct s1 as [|x s1]; simpl in E.
      + exists (String c w). subst s2. split; [reflexivity|].
        simpl. now rewrite Hx, Hw.
      + injection E as _ E. exact (IH s1 Hw s2 E H2). }
  destruct Hs as [q [-> Hq]]. now apply no_start_in_field.
Qed.

Lemma lstrip_value (v rest : string) :
  v <> "" -> first_not_space v ->
  lstrip (" " ++ v ++ rest) = (v ++ rest)%string.
Proof.
  destruct v as [|c v]; [contradiction|]. intros _ H. simpl in *.
  now rewrite H.
Qed.

Lemma rstrip_value (v : string) :
  v <> "" -> last_not_space v ->
  rstrip v = v /\ rstrip (v ++ String "010" "") = v.
Proof.
  induction v as [|c v IH]; [contradiction|]. intros _ H.
  destruct v as [|d v].
  - simpl in *. now rewrite H.
  - destruct IH as [I1 I2]; [discriminate | exact H |].
    split.
    + change (rstrip (String c (String d v)))
        with (match rstrip (String d v) with
              | EmptyString => if isspace c then EmptyString else String c EmptyString
              | t => String c t
              end).
      now rewrite I1.
    + change (rstrip (String c (String d v) ++ String "010" ""))
        with (match rstrip (String d v ++ String "010" "") with
              | EmptyString => if isspace c then EmptyString else String c EmptyString
              | t => String c t
              end).
      now rewrite I2.
Qed.

Lemma strip_line (v : string) :
  value_ok v ->
  strip ((" " ++ v) ++ String "010" "") = v /\ strip (" " ++ v) = v.
Proof.
  intros (Hne & _ & Hf & Hl). unfold strip.
  destruct (rstrip_value v Hne Hl) as [R1 R2]. split.
  - rewrite append_assoc, (lstrip_value v _ Hne Hf). exact R2.
  - rewrite <- (append_nil_r v) at 1.
    rewrite (lstrip_value v "" Hne Hf), append_nil_r. exact R1.
Qed.

(** The group of a section that is followed by the next header. *)
Lemma group_before_header (header next v rest : string) :
  occurs ":" next = true -> occurs "010" next = false ->
  value_ok v ->
  re_search header (Some next) (header ++ line v (next ++ rest)) =
  Some ((" " ++ v) ++ String "010" "")%string.
Proof.
  intros Hc Hn (Hne & Hv & _). apply re_search_here. unfold line.
  apply lazy_group_exact.
  - discriminate.
  - unfold lookahead. now rewrite startswith_append.
  - apply no_lookahead_in_field; auto.
    destruct next; [discriminate Hc | discriminate].
Qed.

(** The group of the last section, which the end of the text closes. *)
Lemma group_before_end (header v : string) :
  value_ok v ->
  re_search header None (header ++ line v "") = Some (" " ++ v)%string.
Proof.
  intros (Hne & Hv & _). apply re_search_here. unfold line.
  rewrite append_nil_r. apply lazy_group_exact.
  - discriminate.
  - reflexivity.
  - intros s1 s2 _ _ H2. unfold lookahead. apply at_end_long; [exact H2 | discriminate].
Qed.

(** X14: an answer laid out as the prompt asks, with non-empty, colon-free,
    trimmed values, is parsed back into exactly those six values. *)
Theorem parse_render (a : analysis) :
  well_formed a -> _parse_analysis_result (render a) = Ok a.
Proof.
  intros (H1 & H2 & H3 & H4 & H5 & H6).
  assert (C : forall v, value_ok v -> occurs ":" (" " ++ v) = false)
    by (intros v (_ & Hv & _); exact Hv).
  unfold _parse_analysis_result, parse_try, try_except.
  destruct a as [v1 v2 v3 v4 v5 v6]. cbn [skills_match missing_skills
    improvement_tips overall_score strengths weaknesses] in *.
  unfold render. cbn [skills_match missing_skills improvement_tips
    overall_score strengths weaknesses].
  f_equal.
  rewrite (group_before_header "Skills Match:" "Missing Skills:" v1 _
             eq_refl eq_refl H1).
  set (t6 := ("Weaknesses:" ++ line v6 "")%string).
  set (t5 := ("Strengths:" ++ line v5 t6)%string).
  set (t4 := ("Overall Score:" ++ line v4 t5)%string).
  set (t3 := ("Improvement Tips:" ++ line v3 t4)%string).
  set (t2 := ("Missing Skills:" ++ line v2 t3)%string).
  assert (S2 : re_search "Missing Skills:" (Some "Improvement Tips:")
                 ("Skills Match:" ++ line v1 t2) =
               Some ((" " ++ v2) ++ String "010" "")%string).
  { rewrite re_search_skip_literal by reflexivity. unfold line at 1.
    rewrite re_search_skip_field by (try reflexivity; auto).
    subst t2 t3. now apply group_before_header. }
  assert (S3 : re_search "Improvement Tips:" (Some "Overall Score:")
                 ("Skills Match:" ++ line v1 t2) =
               Some ((" " ++ v3) ++ String "010" "")%string).
  { rewrite re_search_skip_literal by reflexivity. unfold line at 1.
    rewrite re_search_skip_field by (try reflexivity; auto). subst t2.
    rewrite re_search_skip_literal by reflexivity. unfold line at 1.
    rewrite re_search_skip_field by (try reflexivity; auto).
    subst t3 t4. now apply group_before_header. }
  assert (S4 : re_search "Overall Score:" (Some "Strengths:")
                 ("Skills Match:" ++ line v1 t2) =
               Some ((" " ++ v4) ++ String "010" "")%string).
  { rewrite re_search_skip_literal by reflexivity. unfold line at 1.
    rewrite re_search_skip_field by (try reflexivity; auto). subst t2.
    rewrite re_search_skip_literal by reflexivity. unfold line at 1.
    rewrite re_search_skip_field by (try reflexivity; auto). subst t3.
    rewrite re_search_skip_literal by reflexivity. unfold line at 1.
    rewrite re_search_skip_field by (try reflexivity; auto).
    subst t4 t5. now apply group_before_header. }
  assert (S5 : re_search "Strengths:" (Some "Weaknesses:")
                 ("Skills Match:" ++ line v1 t2) =
               Some ((" " ++ v5) ++ String "010" "")%string).
  { rewrite re_search_skip_literal by reflexivity. unfold line at 1.
    rewrite re_search_skip_field by (try reflexivity; auto). subst t2.
    rewrite re_search_skip_literal by reflexivity. unfold line at 1.
    rewrite re_search_skip_field by (try reflexivity; auto). subst t3.
    rewrite re_search_skip_literal by reflexivity. unfold line at 1.
    rewrite re_search_skip_field by (try reflexivity; auto). subst t4.
    rewrite re_search_skip_literal by reflexivity. unfold line at 1.
    rewrite re_search_skip_field by (try reflexivity; auto).
    subst t5 t6. now apply group_before_header. }
  assert (S6 : re_search "Weaknesses:" None
                 ("Skills Match:" ++ line v1 t2) =
               Some (" " ++ v6)%string).
  { rewrite re_search_skip_literal by reflexivity. unfold line at 1.
    rewrite re_search_skip_field by (try reflexivity; auto). subst t2.
    rewrite re_search_skip_literal by reflexivity. unfold line at 1.
    rewrite re_search_skip_field by (try reflexivity; auto). subst t3.
    rewrite re_search_skip_literal by reflexivity. unfold line at 1.
    rewrite re_search_skip_field by (try reflexivity; auto). subst t4.
    rewrite re_search_skip_literal by reflexivity. unfold line at 1.
    rewrite re_search_skip_field by (try reflexivity; auto). subst t5.
    rewrite re_search_skip_literal by reflexivity. unfold line at 1.
    rewrite re_search_skip_field by (try reflexivity; auto).
    subst t6. now apply group_before_end. }
  rewrite S2, S3, S4, S5, S6. unfold section.
  destruct (strip_line v1 H1) as [-> _], (strip_line v2 H2) as [-> _],
           (strip_line v3 H3) as [-> _], (strip_line v4 H4) as [-> _],
           (strip_line v5 H5) as [-> _], (strip_line v6 H6) as [_ ->].
  reflexivity.
Qed.

Lemma parse_render_witness :
  _parse_analysis_result
    (render (mk_analysis "Rocq, OCaml" "Rust" "Show one project
per skill" "7" "proofs" "no C++")) =
  Ok (mk_analysis "Rocq, OCaml" "Rust" "Show one project
per skill" "7" "proofs" "no C++").
Proof.
  apply (parse_render (mk_analysis "Rocq, OCaml" "Rust" "Show one project
per skill" "7" "proofs" "no C++")).
  repeat split; try discriminate.
Defined.

End ReportFacts.

(* ===================================================================== *)
(** * src/config.py and the construction of the analyzer *)
(* ===================================================================== *)

Module SetupFacts.

Import Py Config AnalyzerSetup.

(** X15: a provider other than huggingface, compared without regard to case,
    is read from the environment without touching the HF_ variables, and
    is then rejected by the analyzer with a ValueError before any model is
    loaded; "openai", which the configuration lists, is such a provider. *)
Theorem unsupported_provider
  (environ : string -> option string)
  (py_float : string -> result PyFloat.float) (py_int : string -> result Z)
  (hf_pipeline llm : Type)
  (pipeline : pipeline_args -> result hf_pipeline)
  (wrap : hf_pipeline -> result llm) :
  lower (getenv environ "MODEL_PROVIDER" "huggingface") <> "huggingface" ->
  from_env environ py_float py_int =
    Ok (with_defaults (lower (getenv environ "MODEL_PROVIDER" "huggingface"))) /\
  init hf_pipeline llm pipeline wrap
    (with_defaults (lower (getenv environ "MODEL_PROVIDER" "huggingface"))) =
    Raise (mk_exn ValueError
             ("Unsupported provider: " ++
              lower (getenv environ "MODEL_PROVIDER" "huggingface"))%string).
Proof.
  intros H. apply String.eqb_neq in H. unfold from_env, init.
  cbn [provider with_defaults]. now rewrite H.
Qed.

Lemma unsupported_provider_witness :
  from_env (fun key => if String.eqb key "MODEL_PROVIDER" then Some "OpenAI"
                       else Some "not a number")
    (fun _ => Raise (mk_exn ValueError "could not convert string to float"))
    (fun _ => Raise (mk_exn ValueError "invalid literal for int()")) =
    Ok (with_defaults
          (lower (getenv (fun key => if String.eqb key "MODEL_PROVIDER"
                                     then Some "OpenAI"
                                     else Some "not a number")
                    "MODEL_PROVIDER" "huggingface"))) /\
  init unit unit (fun _ => Ok tt) (fun _ => Ok tt)
    (with_defaults
       (lower (getenv (fun key => if String.eqb key "MODEL_PROVIDER"
                                  then Some "OpenAI"
                                  else Some "not a number")
                 "MODEL_PROVIDER" "huggingface"))) =
    Raise (mk_exn ValueError
             ("Unsupported provider: " ++
              lower (getenv (fun key => if String.eqb key "MODEL_PROVIDER"
                                        then Some "OpenAI"
                                        else Some "not a number")
                       "MODEL_PROVIDER" "huggingface"))%string).
Proof.
  apply (unsupported_provider
           (fun key => if String.eqb key "MODEL_PROVIDER" then Some "OpenAI"
                       else Some "not a number")
           (fun _ => Raise (mk_exn ValueError "could not convert string to float"))
           (fun _ => Raise (mk_exn ValueError "invalid literal for int()"))
           unit unit (fun _ => Ok tt) (fun _ => Ok tt)).
  vm_compute. discriminate.
Defined.

(** X16: when the configured model cannot be set up, the analyzer is built on
    distilgpt2 with max_length 512 and temperature 0.7 instead, silently:
    it still carries the configuration that names the model that failed,
    and construction raises only if distilgpt2 fails too. *)
Theorem setup_falls_back_to_distilgpt2
  (hf_pipeline llm : Type)
  (pipeline : pipeline_args -> result hf_pipeline)
  (wrap : hf_pipeline -> result llm)
  (config : Config.Config) (e : exn) :
  provider config = "huggingface" ->
  (hf <- pipeline (mk_pipeline_args (hf_model_name config)
                     (Some (hf_model_name config)) (hf_max_length config)
                     (hf_temperature config) (Some (hf_device config))
                     (Some 50256)) ;;
   wrap hf) = Raise e ->
  init hf_pipeline llm pipeline wrap config =
  (hf <- pipeline (mk_pipeline_args "distilgpt2" None 512 PyFloat.lit_0_7
                     None None) ;;
   model <- wrap hf ;;
   Ok (mk_analyzer llm config model)).
Proof.
  intros Hp He. unfold init, _setup_huggingface_llm.
  rewrite Hp, He, String.eqb_refl. cbn [try_except]. unfold fallback_args.
  destruct (pipeline (mk_pipeline_args "distilgpt2" None 512 PyFloat.lit_0_7
                        None None)) as [hf|]; reflexivity.
Qed.

Lemma setup_falls_back_to_distilgpt2_witness :
  init unit string
    (fun args => if String.eqb (model args) "distilgpt2" then Ok tt
                 else Raise (mk_exn RuntimeError "model not found"))
    (fun _ => Ok "distilgpt2 wrapped")
    (with_defaults "huggingface") =
  (hf <- (fun args => if String.eqb (model args) "distilgpt2" then Ok tt
                      else Raise (mk_exn RuntimeError "model not found"))
           (mk_pipeline_args "distilgpt2" None 512 PyFloat.lit_0_7 None None) ;;
   model <- (fun _ : unit => Ok "distilgpt2 wrapped") hf ;;
   Ok (mk_analyzer string (with_defaults "huggingface") model)).
Proof.
  apply (setup_falls_back_to_distilgpt2 unit string
           (fun args => if String.eqb (model args) "distilgpt2" then Ok tt
                        else Raise (mk_exn RuntimeError "model not found"))
           (fun _ => Ok "distilgpt2 wrapped")
           (with_defaults "huggingface")
           (mk_exn RuntimeError "model not found"));
    reflexivity.
Defined.

End SetupFacts.

(* ===================================================================== *)
(** * src/resume_analyzer.py: what the six searches find, exactly *)
(* ===================================================================== *)

Module SearchFacts.

Import Py PyFacts ResumeAnalyzer Occurrence.

Lemma append_split (a x b y : string) :
  (a ++ x)%string = (b ++ y)%string ->
  (String.length a <= String.length b)%nat ->
  exists m, b = (a ++ m)%string /\ x = (m ++ y)%string.
Proof.
  revert b; induction a as [|c a IH]; intros b E L.
  - exists b. split; [reflexivity | exact E].
  - destruct b as [|d b]; [simpl in L; lia|].
    simpl in E. injection E as <- E. simpl in L.
    destruct (IH b E ltac:(lia)) as [m [-> ->]]. now exists m.
Qed.

Lemma append_same_length (a x b y : string) :
  (a ++ x)%string = (b ++ y)%string ->
  String.length a = String.length b -> a = b /\ x = y.
Proof.
  intros E L. destruct (append_split a x b y E ltac:(lia)) as [m [Hb Hx]].
  assert (m = "").
  { apply (f_equal String.length) in Hb. rewrite length_append in Hb.
    destruct m; [reflexivity | simpl in Hb; lia]. }
  subst m. rewrite append_nil_r in Hb. now subst.
Qed.

(** What a pattern captures is determined by the text. *)
Lemma found_unique (header : string) (next : option string)
  (text g1 g2 : string) :
  found header next text g1 -> found header next text g2 -> g1 = g2.
Proof.
  intros (b1 & r1 & E1 & F1 & N1 & L1 & M1) (b2 & r2 & E2 & F2 & N2 & L2 & M2).
  pose proof (F1 _ _ E2) as A. pose proof (F2 _ _ E1) as A'.
  assert (Hl : String.length b1 = String.length b2) by lia.
  rewrite E1 in E2.
  destruct (append_same_length _ _ _ _ E2 Hl) as [_ E].
  destruct (append_same_length _ _ _ _ E eq_refl) as [_ Eg].
  destruct (Nat.le_gt_cases (String.length g1) (String.length g2)) as [Hle|Hgt].
  - destruct (append_split _ _ _ _ Eg Hle) as [m [Hg Hr]].
    destruct m as [|c m]; [now rewrite append_nil_r in Hg|].
    exfalso. rewrite Hr in L1.
    rewrite (M2 g1 (String c m) Hg N1 ltac:(discriminate)) in L1. discriminate.
  - symmetry in Eg.
    destruct (append_split _ _ _ _ Eg ltac:(lia)) as [m [Hg Hr]].
    destruct m as [|c m]; [now rewrite append_nil_r in Hg|].
    exfalso. rewrite Hr in L2.
    rewrite (M1 g2 (String c m) Hg N2 ltac:(discriminate)) in L2. discriminate.
Qed.

Lemma found_not_missing (header : string) (next : option string)
  (text g : string) :
  found header next text g -> ~ missing header text.
Proof.
  intros (b & r & E & _ & N & _) M. specialize (M _ _ E).
  destruct g; [contradiction | discriminate].
Qed.

(** X18: each of the six searches is characterised exactly: it captures a
    group if and only if the group is the shortest non-empty span that
    follows the first occurrence of the header and ends where the next
    header of the pattern starts or the text ends, and it fails if and only
    if the header is absent or has nothing after it; the captured group is
    unique. *)
Theorem re_search_characterised (header : string) (next : option string)
  (text : string) :
  (forall group,
     re_search header next text = Some group <->
     found header next text group) /\
  (re_search header next text = None <-> missing header text) /\
  (forall g1 g2, found header next text g1 -> found header next text g2 ->
     g1 = g2).
Proof.
  split; [|split].
  - intros group. split; [apply AnalyzerFacts.re_search_some|].
    intros F. destruct (re_search header next text) as [g|] eqn:E.
    + apply AnalyzerFacts.re_search_some in E.
      f_equal. exact (found_unique _ _ _ _ _ E F).
    + apply AnalyzerFacts.re_search_none in E.
      now apply found_not_missing in F.
  - split; [apply AnalyzerFacts.re_search_none|].
    intros M. destruct (re_search header next text) as [g|] eqn:E;
      [|reflexivity].
    apply AnalyzerFacts.re_search_some in E.
    now apply found_not_missing in E.
  - apply found_unique.
Qed.

End SearchFacts.

(* ===================================================================== *)
(** * app.py: binary32 arithmetic and the value of the semantic score *)
(* ===================================================================== *)

Module F32Facts.

Import Py PyFacts.

(** ** The summation always returns *)

Lemma pairwise_sum_total (fuel : nat) (a : list F32.f32) :
  (List.length a <= fuel + 128)%nat ->
  exists s, F32.pairwise_sum fuel a = Some s.
Proof.
  revert a; induction fuel as [|fuel IH]; intros a H.
  - cbn [F32.pairwise_sum].
    destruct (List.length a <? 8)%nat; [eauto|].
    destruct (Nat.leb_spec (List.length a) 128); [eauto | lia].
  - cbn [F32.pairwise_sum].
    destruct (List.length a <? 8)%nat; [eauto|].
    destruct (Nat.leb_spec (List.length a) 128) as [|Hbig]; [eauto|].
    set (n := List.length a) in *.
    set (n2 := (n / 2 - (n / 2) mod 8)%nat).
    assert (Hn2 : (1 <= n2 /\ n2 < n)%nat).
    { subst n2. pose proof (Nat.mod_upper_bound (n / 2) 8 ltac:(lia)).
      pose proof (Nat.Div0.mod_le (n / 2) 8).
      assert (64 <= n / 2)%nat by (apply Nat.div_le_lower_bound; lia).
      assert (n / 2 < n)%nat by (apply Nat.div_lt; lia). lia. }
    destruct (IH (firstn n2 a)) as [x Hx].
    { rewrite length_firstn. fold n. lia. }
    destruct (IH (skipn n2 a)) as [y Hy].
    { rewrite length_skipn. fold n. lia. }
    rewrite Hx, Hy. eauto.
Qed.

Lemma np_sum_total (a : list F32.f32) :
  exists s, F32.pairwise_sum (List.length a) a = Some s /\
            F32.np_sum a = Some (F32.add (S754_zero false) s).
Proof.
  destruct (pairwise_sum_total (List.length a) a ltac:(lia)) as [s Hs].
  exists s. split; [exact Hs|]. unfold F32.np_sum. now rewrite Hs.
Qed.

(** ** [int()] truncates the exact value *)

Lemma truncate_integer (v : Z) :
  Spec.truncate_toward_zero (inject_Z v) = v.
Proof.
  unfold Spec.truncate_toward_zero.
  destruct (Qle_bool 0 (inject_Z v)); [apply Qfloor_Z | apply Qceiling_Z].
Qed.

Lemma to_int_truncates (x : F32.f32) (z : Z) :
  F32.to_int x = Ok z -> z = Spec.truncate_toward_zero (F32.to_Q x).
Proof.
  unfold F32.to_int, F32.to_Q, PyFloat.to_int, PyFloat.to_Q.
  destruct x as [s|s| |s m e]; try discriminate.
  - intros H. injection H as <-. reflexivity.
  - intros H. injection H as <-.
    destruct (Z.leb_spec 0 e) as [He|He].
    + destruct s.
      * change (- inject_Z (Z.pos m * 2 ^ e))%Q
          with (inject_Z (- (Z.pos m * 2 ^ e))).
        now rewrite truncate_integer.
      * now rewrite truncate_integer.
    + assert (Hd : 0 < 2 ^ (- e)) by (apply Z.pow_pos_nonneg; lia).
      unfold Spec.truncate_toward_zero, Qle_bool, Qceiling, Qfloor.
      destruct s; cbn [Qopp Qnum Qden]; rewrite ?Z.mul_1_r, ?Z.mul_0_l;
        rewrite ?Z2Pos.id by exact Hd.
      * change (0 <=? - Z.pos m) with false. cbn [Z.opp]. reflexivity.
      * reflexivity.
Qed.

(** ** The order of the floats *)

Lemma leb_key (x y : F32.f32) :
  F32.is_nan x = false -> F32.is_nan y = false ->
  (SFleb x y = true <-> SpecF32.key_le (SpecF32.key x) (SpecF32.key y)).
Proof.
  unfold SFleb, SFcompare, SpecF32.key_le, SpecF32.key.
  destruct x as [sx|sx| |sx mx ex], y as [sy|sy| |sy my ey];
    try discriminate; intros _ _;
    try destruct sx; try destruct sy;
    try (split; [intros _; lia | reflexivity]);
    try (split; [discriminate | lia]).
  - destruct (Z.compare_spec ex ey) as [E|E|E].
    + subst ey. rewrite Pos.compare_cont_spec.
      change (mx ?= my)%positive with (Z.pos mx ?= Z.pos my).
      destruct (Z.compare_spec (Z.pos mx) (Z.pos my));
        cbn [Pos.switch_Eq CompOpp];
        (split; [intros D; (discriminate D || lia)
                | intros; (reflexivity || lia)]).
    + split; [discriminate | lia].
    + split; [intros _; lia | reflexivity].
  - destruct (Z.compare_spec ex ey) as [E|E|E].
    + subst ey. rewrite Pos.compare_cont_spec.
      change (mx ?= my)%positive with (Z.pos mx ?= Z.pos my).
      destruct (Z.compare_spec (Z.pos mx) (Z.pos my));
        cbn [Pos.switch_Eq CompOpp];
        (split; [intros D; (discriminate D || lia)
                | intros; (reflexivity || lia)]).
    + split; [intros _; lia | reflexivity].
    + split; [discriminate | lia].
Qed.

Lemma key_le_refl (k : Z * Z * Z) : SpecF32.key_le k k.
Proof. destruct k as [[a b] c]. unfold SpecF32.key_le. lia. Qed.

Lemma key_le_trans (k1 k2 k3 : Z * Z * Z) :
  SpecF32.key_le k1 k2 -> SpecF32.key_le k2 k3 -> SpecF32.key_le k1 k3.
Proof.
  destruct k1 as [[a1 b1] c1], k2 as [[a2 b2] c2], k3 as [[a3 b3] c3].
  unfold SpecF32.key_le. lia.
Qed.

Lemma key_le_total (k1 k2 : Z * Z * Z) :
  SpecF32.key_le k1 k2 \/ SpecF32.key_le k2 k1.
Proof.
  destruct k1 as [[a1 b1] c1], k2 as [[a2 b2] c2].
  unfold SpecF32.key_le. lia.
Qed.

Lemma not_nan_in (row : list F32.f32) (x : F32.f32) :
  existsb F32.is_nan row = false -> In x row -> F32.is_nan x = false.
Proof.
  intros H Hin. destruct (F32.is_nan x) eqn:E; [|reflexivity].
  assert (existsb F32.is_nan row = true) by (apply existsb_exists; eauto).
  congruence.
Qed.

Lemma is_nan_eq (x : F32.f32) : F32.is_nan x = true -> x = S754_nan.
Proof. destruct x; try discriminate. reflexivity. Qed.

(** One more element keeps the running maximum a maximum. *)
Lemma maximum_step (seen : list F32.f32) (acc y : F32.f32) :
  SpecF32.is_maximum seen acc ->
  SpecF32.is_maximum (seen ++ [y]) (F32.maximum acc y).
Proof.
  intros [Hin Hmax]. unfold SpecF32.is_maximum, F32.maximum.
  rewrite existsb_app. cbn [existsb]. rewrite orb_false_r.
  destruct (existsb F32.is_nan seen) eqn:Es.
  - subst acc. cbn [F32.is_nan]. rewrite orb_true_r. cbn [orb].
    split; [apply in_or_app; now left | reflexivity].
  - pose proof (not_nan_in seen acc Es Hin) as Ha. rewrite Ha, orb_false_r.
    destruct (F32.is_nan y) eqn:Ey; cbn [orb].
    + apply is_nan_eq in Ey. subst y.
      replace (SFleb S754_nan acc) with false by now destruct acc.
      split; [apply in_or_app; right; now left | reflexivity].
    + destruct (SFleb y acc) eqn:L.
      * split; [apply in_or_app; now left|].
        apply Forall_app. split; [exact Hmax | now constructor].
      * assert (L' : SFleb acc y = true).
        { apply leb_key; auto.
          destruct (key_le_total (SpecF32.key acc) (SpecF32.key y)) as [K|K];
            [exact K|].
          apply leb_key in K; auto. congruence. }
        split; [apply in_or_app; right; now left|].
        apply Forall_app. split.
        -- rewrite Forall_forall in Hmax |- *. intros x Hx.
           pose proof (not_nan_in seen x Es Hx) as Hnx.
           apply leb_key; auto. apply key_le_trans with (SpecF32.key acc).
           ++ apply leb_key; auto.
           ++ apply leb_key; auto.
        -- constructor; [|constructor]. apply leb_key; auto. apply key_le_refl.
Qed.

Lemma fold_maximum (rest seen : list F32.f32) (acc : F32.f32) :
  SpecF32.is_maximum seen acc ->
  SpecF32.is_maximum (seen ++ rest) (fold_left F32.maximum rest acc).
Proof.
  revert seen acc; induction rest as [|y rest IH]; intros seen acc H.
  - now rewrite app_nil_r.
  - cbn [fold_left].
    replace (seen ++ y :: rest) with ((seen ++ [y]) ++ rest)
      by now rewrite <- app_assoc.
    apply IH, maximum_step, H.
Qed.

(** [np.max] of a row is its greatest element. *)
Lemma np_max_is_maximum (x : F32.f32) (rest : list F32.f32) :
  SpecF32.is_maximum (x :: rest) (fold_left F32.maximum rest x).
Proof.
  apply (fold_maximum rest [x] x). unfold SpecF32.is_maximum.
  split; [now left|]. cbn [existsb]. rewrite orb_false_r.
  destruct (F32.is_nan x) eqn:E; [now apply is_nan_eq|].
  constructor; [|constructor]. apply leb_key; auto. apply key_le_refl.
Qed.

End F32Facts.

Module SemanticF32Facts.

Import Py PyFacts AppF32.

Section Pipeline.

Variable B : Backend.

Lemma best_match_is_maximum (vs : list (embedding B)) (u : embedding B) :
  vs <> [] ->
  SpecF32.is_maximum (SpecF32.similarities B vs u) (SpecF32.best_match B vs u).
Proof.
  intros Hne. unfold SpecF32.best_match.
  destruct (SpecF32.similarities B vs u) as [|x rest] eqn:E.
  - destruct vs; [contradiction | discriminate E].
  - apply F32Facts.np_max_is_maximum.
Qed.

Lemma row_best_matches (us vs : list (embedding B)) :
  vs <> [] ->
  np_max_axis1 (map (fun x => map (cosine B x) vs) us) =
  Ok (map (SpecF32.best_match B vs) us).
Proof.
  intros Hne. induction us as [|u us IH]; [reflexivity|].
  cbn [map np_max_axis1]. rewrite IH. unfold SpecF32.best_match,
    SpecF32.similarities.
  destruct vs as [|v vs']; [contradiction|]. reflexivity.
Qed.

End Pipeline.

(** The clamp of the last line bounds every score of the embedding path. *)
Lemma semantic_try_bounds (B : Backend) (resume_text job_description : pyval)
  (score : Z) :
  semantic_try B resume_text job_description = Ok score -> 10 <= score <= 95.
Proof.
  unfold semantic_try. intros H.
  destruct (load_sentence_transformer B) as [m|]; [|discriminate].
  destruct resume_text as [resume|]; [|discriminate].
  destruct job_description as [jd|]; [|discriminate].
  cbn [bind str_method] in H.
  destruct (encode B m (App.segment resume)) as [us|]; [|discriminate].
  destruct (encode B m (App.segment jd)) as [vs|]; [|discriminate].
  cbn [bind] in H.
  destruct (cosine_similarity B us vs) as [matrix|]; [|discriminate].
  cbn [bind] in H.
  destruct (np_max_axis1 matrix) as [maxes|]; [|discriminate].
  cbn [bind] in H.
  destruct (F32.to_int (times_100 (np_mean maxes))) as [p|]; [|discriminate].
  cbn [bind] in H. injection H as <-. lia.
Qed.

(** In float32 too the scorer never raises: it returns the clamped score of
    the embedding path, or the fallback score when that path fails, as it
    does when the mean is [nan] or infinite and [int] rejects it. *)
Lemma float32_scorer_never_raises (B : Backend)
  (resume_text job_description : pyval) :
  exists score,
    calculate_semantic_similarity B resume_text job_description = Ok score /\
    (semantic_try B resume_text job_description = Ok score /\
     10 <= score <= 95
     \/
     raises (semantic_try B resume_text job_description) /\
     App.calculate_keyword_fallback_score resume_text job_description
       = Ok score /\
     15 <= score <= 90).
Proof.
  destruct (semantic_try B resume_text job_description) as [score|e] eqn:E.
  - exists score. unfold calculate_semantic_similarity. rewrite E.
    split; [reflexivity|]. left. split; [reflexivity|].
    now apply (semantic_try_bounds B resume_text job_description).
  - destruct (FallbackFacts.fallback_bounds resume_text job_description)
      as [score [Hf Hb]].
    exists score. unfold calculate_semantic_similarity. rewrite E. cbn.
    split; [exact Hf|]. right. split; [now exists e | now split].
Qed.

(** A [nan] similarity sends the call to the fallback scorer. *)
Lemma float32_nan_falls_back :
  raises (semantic_try (FixturesF32.constant_backend S754_nan)
            (PyStr "abc") (PyStr "xyz")) /\
  calculate_semantic_similarity (FixturesF32.constant_backend S754_nan)
    (PyStr "abc") (PyStr "xyz") = Ok 63.
Proof.
  split; [eexists; vm_compute; reflexivity | vm_compute; reflexivity].
Qed.

(** C1, as the code has it: whenever the embedding path succeeds the
    semantic score is the percentage truncated toward zero (not rounded)
    and clamped to [10, 95].  The percentage is the float32 product of
    overall_similarity and 100; overall_similarity is the float32 mean that
    [np.mean] computes over the resume units of the maximum cosine
    similarity of that unit against all job-description units. *)
Theorem float32_score_truncates (B : Backend)
  (resume_text job_description : pyval) (score : Z) :
  semantic_try B resume_text job_description = Ok score ->
  exists m resume jd us vs,
    load_sentence_transformer B = Ok m /\
    resume_text = PyStr resume /\ job_description = PyStr jd /\
    encode B m (App.segment resume) = Ok us /\
    encode B m (App.segment jd) = Ok vs /\
    Forall (fun u => SpecF32.is_maximum (SpecF32.similarities B vs u)
                       (SpecF32.best_match B vs u)) us /\
    score = SpecF32.truncated_score B us vs /\
    10 <= score <= 95 /\
    calculate_semantic_similarity B resume_text job_description = Ok score.
Proof.
  intros H.
  assert (Hc : calculate_semantic_similarity B resume_text job_description
               = Ok score)
    by (unfold calculate_semantic_similarity; now rewrite H).
  unfold semantic_try in H.
  destruct (load_sentence_transformer B) as [m|] eqn:Em; [|discriminate].
  destruct resume_text as [resume|]; [|discriminate].
  destruct job_description as [jd|]; [|discriminate].
  cbn [bind str_method] in H.
  destruct (encode B m (App.segment resume)) as [us|] eqn:Eu; [|discriminate].
  destruct (encode B m (App.segment jd)) as [vs|] eqn:Ev; [|discriminate].
  cbn [bind] in H.
  assert (Hne : us <> [] /\ vs <> []).
  { destruct us, vs; try discriminate H; split; discriminate. }
  destruct Hne as [Hus Hvs].
  assert (Hm : cosine_similarity B us vs =
               Ok (map (fun x => map (cosine B x) vs) us)).
  { destruct us, vs; try contradiction; reflexivity. }
  rewrite Hm in H. cbn [bind] in H.
  rewrite (row_best_matches B us vs Hvs) in H. cbn [bind] in H.
  change (times_100 (np_mean (map (SpecF32.best_match B vs) us)))
    with (SpecF32.percentage B us vs) in H.
  destruct (F32.to_int (SpecF32.percentage B us vs)) as [p|] eqn:Ep;
    [|discriminate].
  cbn [bind] in H. injection H as <-.
  apply F32Facts.to_int_truncates in Ep.
  exists m, resume, jd, us, vs.
  split; [reflexivity|]. split; [reflexivity|]. split; [reflexivity|].
  split; [exact Eu|]. split; [exact Ev|].
  split.
  { apply Forall_forall. intros u _. now apply best_match_is_maximum. }
  split; [unfold SpecF32.truncated_score, Spec.clamp; now rewrite Ep|].
  split; [lia | exact Hc].
Qed.

Lemma float32_score_truncates_witness :
  exists m resume jd us vs,
    load_sentence_transformer
      (FixturesF32.constant_backend FixturesF32.f32_0_506) = Ok m /\
    PyStr "abc" = PyStr resume /\ PyStr "xyz" = PyStr jd /\
    encode (FixturesF32.constant_backend FixturesF32.f32_0_506) m
      (App.segment resume) = Ok us /\
    encode (FixturesF32.constant_backend FixturesF32.f32_0_506) m
      (App.segment jd) = Ok vs /\
    Forall (fun u =>
              SpecF32.is_maximum
                (SpecF32.similarities
                   (FixturesF32.constant_backend FixturesF32.f32_0_506) vs u)
                (SpecF32.best_match
                   (FixturesF32.constant_backend FixturesF32.f32_0_506) vs u))
           us /\
    50 = SpecF32.truncated_score
           (FixturesF32.constant_backend FixturesF32.f32_0_506) us vs /\
    10 <= 50 <= 95 /\
    calculate_semantic_similarity
      (FixturesF32.constant_backend FixturesF32.f32_0_506)
      (PyStr "abc") (PyStr "xyz") = Ok 50.
Proof.
  apply (float32_score_truncates
           (FixturesF32.constant_backend FixturesF32.f32_0_506)
           (PyStr "abc") (PyStr "xyz") 50).
  vm_compute. reflexivity.
Defined.

(** C1 as stated fails: with every similarity the float32 nearest to 0.506
    the percentage is the float32 nearest to 50.6; the code returns 50,
    rounding gives 51. *)
Lemma float32_score_not_rounded :
  semantic_try (FixturesF32.constant_backend FixturesF32.f32_0_506)
    (PyStr "abc") (PyStr "xyz") = Ok 50 /\
  calculate_semantic_similarity
    (FixturesF32.constant_backend FixturesF32.f32_0_506)
    (PyStr "abc") (PyStr "xyz") = Ok 50 /\
  SpecF32.rounded_score
    (FixturesF32.constant_backend FixturesF32.f32_0_506) [tt] [tt] = 51.
Proof. repeat split; vm_compute; reflexivity. Qed.

(** Where float32 and exact arithmetic part: the float32 nearest to 0.7
    gives the percentage 70.0 and the score 70 (its exact percentage is
    below 70), and three units at the float32 nearest to 0.86 give the mean
    14428405 / 2^24 and the score 85 (their exact mean gives 86). *)
Lemma float32_rounding_examples :
  calculate_semantic_similarity
    (FixturesF32.constant_backend (S754_finite false 11744051 (-24)))
    (PyStr "abc") (PyStr "xyz") = Ok 70 /\
  np_mean [FixturesF32.f32_0_86; FixturesF32.f32_0_86; FixturesF32.f32_0_86] =
    S754_finite false 14428405 (-24) /\
  calculate_semantic_similarity
    (FixturesF32.constant_backend FixturesF32.f32_0_86)
    (PyStr "Sentence number one. Sentence number two. Sentence number three.")
    (PyStr "xyz") = Ok 85.
Proof. repeat split; vm_compute; reflexivity. Qed.

End SemanticF32Facts.
